(** * opencode-sync: the synchronisation engine, embedded and verified

    A shallow embedding of [src/sync/service.ts] (the orchestrator) and of
    the commit-message generator ([commit.ts]), with the properties the
    specification states about them.

    Layout: JavaScript strings and dynamic values, the data model, the
    effect monad (external calls answered by an oracle and recorded in a
    trace), the commit-message generator, the planner and the persistence
    helpers, the service; then the theorems. *)

From Stdlib Require Import ZArith NArith Lia Bool Ascii DecimalString.
From Stdlib Require Import String.
From stdpp Require Import base option list gmap.

Local Open Scope N_scope.

(* ===================================================================== *)
(** * JavaScript strings *)
(* ===================================================================== *)

(** A JavaScript string is a sequence of UTF-16 code units; [length],
    [slice], [trim] and [split] all work on code units. *)
Abbreviation jsstring := (list N).

(** String literals of the source (all ASCII). *)
Definition lit (s : String.string) : jsstring :=
  map N_of_ascii (String.list_ascii_of_string s).

Fixpoint dropWhile (p : N -> bool) (s : jsstring) : jsstring :=
  match s with
  | [] => []
  | c :: s' => if p c then dropWhile p s' else s
  end.

Definition dropWhileEnd (p : N -> bool) (s : jsstring) : jsstring :=
  rev (dropWhile p (rev s)).

(** ECMAScript WhiteSpace and LineTerminator code units, the set that
    [String.prototype.trim] removes. *)
Definition isWhiteSpace (c : N) : bool :=
  (c =? 9) || (c =? 10) || (c =? 11) || (c =? 12) || (c =? 13) || (c =? 32)
  || (c =? 160) || (c =? 5760) || ((8192 <=? c) && (c <=? 8202))
  || (c =? 8232) || (c =? 8233) || (c =? 8239) || (c =? 8287)
  || (c =? 12288) || (c =? 65279).

(** [s.trim()] *)
Definition trim (s : jsstring) : jsstring :=
  dropWhileEnd isWhiteSpace (dropWhile isWhiteSpace s).

(** [s.split(sep)] for a one-character separator: never empty. *)
Fixpoint split (sep : N) (s : jsstring) : list jsstring :=
  match s with
  | [] => [[]]
  | c :: s' =>
      if c =? sep then [] :: split sep s'
      else match split sep s' with
           | seg :: rest => (c :: seg) :: rest
           | [] => [[c]]
           end
  end.

(** [xs.join(sep)] *)
Fixpoint join (sep : jsstring) (xs : list jsstring) : jsstring :=
  match xs with
  | [] => []
  | [x] => x
  | x :: rest => x ++ sep ++ join sep rest
  end.

(** [s.slice(0, n)] *)
Definition slice0 (n : nat) (s : jsstring) : jsstring := take n s.

(** [s.padStart(n, '0')] *)
Definition padStart0 (n : nat) (s : jsstring) : jsstring :=
  replicate (n - length s) 48 ++ s.

(** [String(n)] for an integral number. *)
Definition String_of_Z (z : Z) : jsstring :=
  lit (NilZero.string_of_int (Z.to_int z)).

Fixpoint startsWith (p s : jsstring) : bool :=
  match p, s with
  | [], _ => true
  | _ :: _, [] => false
  | a :: p', b :: s' => (a =? b) && startsWith p' s'
  end.

(** [s.includes(p)] *)
Fixpoint includes (p s : jsstring) : bool :=
  startsWith p s || match s with [] => false | _ :: s' => includes p s' end.

(** [s.endsWith(p)] *)
Definition endsWith (p s : jsstring) : bool := startsWith (rev p) (rev s).

(** Truthiness of a string: non-empty. *)
Definition nonEmpty (s : jsstring) : bool :=
  match s with [] => false | _ => true end.

(** Truthiness of an optional string ([undefined] is falsy). *)
Definition truthyOpt (s : option jsstring) : bool :=
  match s with Some s => nonEmpty s | None => false end.

Definition LF : N := 10.

(* ===================================================================== *)
(** * Dynamic values *)
(* ===================================================================== *)

(** Values of type [unknown] as the client hands them back: JSON-shaped
    trees plus [undefined].  Numbers are only ever tested for truthiness
    here (a non-integral number behaves like any non-zero one, NaN like
    zero). *)
#[warnings="-register-all"]
Inductive JsValue : Type :=
| JUndefined
| JNull
| JBool (b : bool)
| JNum (n : Z)
| JStr (s : jsstring)
| JArr (items : list JsValue)
| JObj (fields : list (jsstring * JsValue)).

Definition truthy (v : JsValue) : bool :=
  match v with
  | JUndefined | JNull => false
  | JBool b => b
  | JNum n => negb (n =? 0)%Z
  | JStr s => nonEmpty s
  | JArr _ | JObj _ => true
  end.

(** [typeof v === 'object'] (true of [null] as well). *)
Definition typeofObject (v : JsValue) : bool :=
  match v with
  | JNull | JArr _ | JObj _ => true
  | _ => false
  end.

Definition isNullish (v : JsValue) : bool :=
  match v with JUndefined | JNull => true | _ => false end.

Fixpoint assoc (k : jsstring) (fields : list (jsstring * JsValue)) : option JsValue :=
  match fields with
  | [] => None
  | (k', v) :: rest => if decide (k = k') then Some v else assoc k rest
  end.

(** [v.k] on a value that is not nullish.  None of the property names the
    source reads ([error], [data], [id], [parts], [info], [type], [text],
    [small_model], [model]) exists on a primitive or on an array. *)
Definition getProp (v : JsValue) (k : String.string) : JsValue :=
  match v with
  | JObj fields => default JUndefined (assoc (lit k) fields)
  | _ => JUndefined
  end.

(** ['k' in v] on an object. *)
Definition hasProp (v : JsValue) (k : String.string) : bool :=
  match v with
  | JObj fields => bool_decide (is_Some (assoc (lit k) fields))
  | _ => false
  end.

(** [a ?? b] *)
Definition nullish_or (a b : JsValue) : JsValue :=
  if isNullish a then b else a.

(* ===================================================================== *)
(** * Errors *)
(* ===================================================================== *)

Inductive ErrorKind :=
| SyncConfigMissingError
| SyncCommandError
| TypeError
| OtherError          (* any other Error thrown by a collaborator *)
| NonErrorValue.      (* a thrown value that is not an Error *)

(** A thrown value: its class and its message (for a value that is not an
    Error, [String(value)]). *)
Record Exn := mkExn { kind : ErrorKind; message : jsstring }.

Inductive Result (A : Type) : Type :=
| Ok (a : A)
| Err (e : Exn).
Arguments Ok {A} a.
Arguments Err {A} e.

(** [formatError]: [error.message] for an Error, [String(error)]
    otherwise. *)
Definition formatError (e : Exn) : jsstring := message e.

(* ===================================================================== *)
(** * Data model *)
(* ===================================================================== *)

Record RepoRef := mkRepoRef {
  repo_owner : option jsstring;
  repo_name : option jsstring;
  repo_url : option jsstring;
  repo_branch : option jsstring
}.

Record SyncConfig := mkSyncConfig {
  repo : option RepoRef;
  includeSecrets : bool;
  extraSecretPaths : list jsstring;
  localRepoPath : option jsstring
}.

Record SyncLocations := mkSyncLocations {
  configRoot : jsstring;
  dataDir : jsstring;
  syncConfigPath : jsstring;
  overridesPath : jsstring;
  statePath : jsstring;
  defaultRepoRoot : jsstring
}.

Record SyncItem := mkSyncItem {
  sourcePath : jsstring;
  repoRelativePath : jsstring;
  isSecret : bool
}.

Record SyncPlan := mkSyncPlan {
  items : list SyncItem;
  extraSecrets_allowlist : list jsstring
}.

(** [SyncState]; a [Partial<SyncState>] patch has the same shape. *)
Record SyncState := mkSyncState {
  lastPull : option jsstring;
  lastPush : option jsstring;
  lastRemoteUpdate : option jsstring
}.

Record InitOptions := mkInitOptions {
  opt_repo : option jsstring;
  opt_owner : option jsstring;
  opt_name : option jsstring;
  opt_url : option jsstring;
  opt_branch : option jsstring;
  opt_includeSecrets : option bool;
  opt_create : option bool;
  opt_private : option bool;
  opt_extraSecretPaths : option (list jsstring);
  opt_localRepoPath : option jsstring
}.

Record RepoStatus := mkRepoStatus {
  status_branch : jsstring;
  status_changes : list jsstring
}.

Record FetchResult := mkFetchResult { updated : bool }.

Record SmallModel := mkSmallModel { providerID : jsstring; modelID : jsstring }.

Inductive ToastVariant := info | success | warning | error.

(** A [Date], seen through the methods the source calls on it.  The only
    dates the program makes are [new Date()], which are valid. *)
Record Date := mkDate {
  getFullYear : Z;
  getMonth : Z;
  getDate : Z;
  toISOString : jsstring
}.

(** [process.env] and [process.platform]. *)
Record ProcessEnv := mkProcessEnv {
  vars : gmap jsstring jsstring;
  platform : jsstring
}.

(* ===================================================================== *)
(** * External calls, traces and the effect monad *)
(* ===================================================================== *)

(** Every suspending call the engine makes to a collaborator, indexed by
    the type of its answer: the helpers of [config.ts], [apply.ts] and
    [repo.ts], the shell [$], the plugin [client], and the clock. *)
Inductive Call : Type -> Type :=
(* config.ts *)
| CLoadSyncConfig (loc : SyncLocations) : Call unit
| CWriteSyncConfig (loc : SyncLocations) (config : SyncConfig) : Call unit
| CLoadState (loc : SyncLocations) : Call unit
| CWriteState (loc : SyncLocations) (patch : SyncState) : Call unit
| CLoadOverrides (loc : SyncLocations) : Call JsValue
(* apply.ts *)
| CSyncRepoToLocal (plan : SyncPlan) (overrides : JsValue) : Call unit
| CSyncLocalToRepo (plan : SyncPlan) (overrides : JsValue) : Call unit
(* repo.ts *)
| CEnsureRepoCloned (config : SyncConfig) (repoRoot : jsstring) : Call unit
| CEnsureRepoPrivate (config : SyncConfig) : Call unit
| CFetchAndFastForward (repoRoot branch : jsstring) : Call FetchResult
| CGetRepoStatus (repoRoot : jsstring) : Call RepoStatus
| CHasLocalChanges (repoRoot : jsstring) : Call bool
| CIsRepoCloned (repoRoot : jsstring) : Call bool
| CCommitAll (repoRoot message : jsstring) : Call unit
| CPushBranch (repoRoot branch : jsstring) : Call unit
(* the shell *)
| CGhRepoCreate (owner name visibility : jsstring) : Call unit
| CGitDiffNameStatus (repoDir : jsstring) : Call jsstring
| CGitDiffStat (repoDir : jsstring) : Call jsstring
(* the client *)
| CConfigGet : Call JsValue
| CSessionCreate (title : jsstring) : Call JsValue
| CSessionPrompt (id : JsValue) (model : SmallModel) (prompt : jsstring) : Call JsValue
| CSessionDelete (id : JsValue) : Call JsValue
| CShowToast (message : jsstring) (variant : ToastVariant) : Call unit
(* new Date() *)
| CNow : Call Date.

(** A call together with how it came back. *)
Inductive Event : Type :=
| Ev {A : Type} (c : Call A) (r : Result A).

(** The collaborators: each call is answered (or made to throw) as a
    function of everything that happened before it.  The clock cannot
    throw. *)
Record Oracle := mkOracle {
  answer : forall A, list Event -> Call A -> Result A;
  clock : list Event -> Date
}.

Record World := mkWorld {
  w_env : ProcessEnv;
  w_configFiles : gmap jsstring SyncConfig;
  w_stateFiles : gmap jsstring SyncState;
  w_trace : list Event
}.

Definition M (A : Type) : Type := Oracle -> World -> Result A * World.

Definition ret {A} (a : A) : M A := fun _ w => (Ok a, w).

Definition throw {A} (e : Exn) : M A := fun _ w => (Err e, w).

Definition bind {A B} (m : M A) (f : A -> M B) : M B :=
  fun o w =>
    match m o w with
    | (Ok a, w') => f a o w'
    | (Err e, w') => (Err e, w')
    end.

Declare Scope js_scope.
Delimit Scope js_scope with js.
Notation "x <- m ;; k" := (bind m (fun x => k))
  (at level 100, m at next level, right associativity) : js_scope.
Notation "m ;;; k" := (bind m (fun _ => k))
  (at level 100, right associativity) : js_scope.
Local Open Scope js_scope.

Definition record (e : Event) (w : World) : World :=
  mkWorld (w_env w) (w_configFiles w) (w_stateFiles w) (w_trace w ++ [e]).

(** [await c]: ask the oracle, record the call and its outcome. *)
Definition call {A} (c : Call A) : M A :=
  fun o w =>
    let r := answer o A (w_trace w) c in
    (r, record (Ev c r) w).

(** [new Date()] *)
Definition now : M Date :=
  fun o w =>
    let d := clock o (w_trace w) in
    (Ok d, record (Ev CNow (Ok d)) w).

Definition gets {A} (f : World -> A) : M A := fun _ w => (Ok (f w), w).

Definition modify (f : World -> World) : M unit := fun _ w => (Ok tt, f w).

(** [try { m } catch (e) { h e }] *)
Definition tryCatch {A} (m : M A) (h : Exn -> M A) : M A :=
  fun o w =>
    match m o w with
    | (Ok a, w') => (Ok a, w')
    | (Err e, w') => h e o w'
    end.

(** [try { m } finally { f }] where [f] completes normally: the outcome
    of [m] is kept, whether it returned or threw. *)
Definition tryFinally {A} (m : M A) (f : M unit) : M A :=
  fun o w =>
    match m o w with
    | (r, w') =>
        match f o w' with
        | (Ok _, w'') => (r, w'')
        | (Err e, w'') => (Err e, w'')
        end
    end.

(** Reify the outcome of [m]: the first statement of a [try] block whose
    [catch] is decided by the caller. *)
Definition attempt {A} (m : M A) : M (Result A) :=
  tryCatch (a <- m ;; ret (Ok a)) (fun e => ret (Err e)).

(** A pure step that may throw. *)
Definition liftR {A} (r : Result A) : M A := fun _ w => (r, w).

(* ===================================================================== *)
(** * commit.ts: the commit-message generator *)
(* ===================================================================== *)

Definition typeError (msg : String.string) : Exn := mkExn TypeError (lit msg).

(** [v?.k] *)
Definition optChain (v : JsValue) (k : String.string) : JsValue :=
  if isNullish v then JUndefined else getProp v k.

Definition unwrapData (response : JsValue) : JsValue :=
  if negb (truthy response) || negb (typeofObject response) then JNull
  else
    let maybeError := getProp response "error" in
    if truthy maybeError then JNull
    else if hasProp response "data" then
      let data := getProp response "data" in
      match data with
      | JUndefined => JNull
      | _ => data
      end
    else response.

(** The callback of [parts.find]: [part.type === 'text' && part.text].
    Reading a property of [null] or [undefined] throws. *)
Definition isTextPart (part : JsValue) : Result bool :=
  if isNullish part then Err (typeError "Cannot read properties of a nullish part")
  else
    Ok (match getProp part "type" with
        | JStr t => bool_decide (t = lit "text") && truthy (getProp part "text")
        | _ => false
        end).

(** [parts.find(callback)]: the first element the callback accepts, or
    [undefined]. *)
Fixpoint find (parts : list JsValue) : Result JsValue :=
  match parts with
  | [] => Ok JUndefined
  | part :: rest =>
      match isTextPart part with
      | Err e => Err e
      | Ok true => Ok part
      | Ok false => find rest
      end
  end.

Definition extractMessage (response : JsValue) : Result (option jsstring) :=
  if negb (truthy response) || negb (typeofObject response) then Ok None
  else
    let parts :=
      nullish_or
        (nullish_or (getProp response "parts")
                    (optChain (getProp response "info") "parts"))
        (JArr []) in
    match parts with
    | JArr elems =>
        match find elems with
        | Err e => Err e
        | Ok textPart =>
            (* textPart?.text?.trim() ?? null *)
            match optChain textPart "text" with
            | JUndefined | JNull => Ok None
            | JStr text => Ok (Some (trim text))
            | _ => Err (typeError "textPart.text.trim is not a function")
            end
        end
    | _ => Err (typeError "parts.find is not a function")
    end.

Definition isQuote (c : N) : bool := (c =? 34) || (c =? 39) || (c =? 96).

(** [s.replace(/^["'`]+|["'`]+$/g, '')]: the leading run of quote
    characters goes, then the run of quote characters that reaches the end
    of what is left. *)
Definition stripQuotes (s : jsstring) : jsstring :=
  dropWhileEnd isQuote (dropWhile isQuote s).

Definition sanitizeMessage (message : jsstring) : jsstring :=
  let firstLine := trim (default [] (head (split LF message))) in
  let trimmed := trim (stripQuotes firstLine) in
  if negb (nonEmpty trimmed) then []
  else if (length trimmed <=? 72)%nat then trimmed
  else trim (slice0 72 trimmed).

Definition resolveSmallModel : M (option SmallModel) :=
  r <- attempt (call CConfigGet) ;;
  match r with
  | Err _ => ret None
  | Ok response =>
      let config := unwrapData response in
      if negb (truthy config) then ret None
      else
        let modelValue :=
          nullish_or (getProp config "small_model") (getProp config "model") in
        if negb (truthy modelValue) then ret None
        else
          match modelValue with
          | JStr s =>
              (* const [providerID, modelID] = modelValue.split('/', 2) *)
              let segments := take 2 (split 47 s) in
              let providerID := segments !! 0%nat in
              let modelID := segments !! 1%nat in
              if negb (truthyOpt providerID) || negb (truthyOpt modelID)
              then ret None
              else ret (Some (mkSmallModel (default [] providerID) (default [] modelID)))
          | _ => throw (typeError "modelValue.split is not a function")
          end
  end.

Definition getDiffSummary (repoDir : jsstring) : M jsstring :=
  tryCatch
    (nameStatus <- call (CGitDiffNameStatus repoDir) ;;
     stats <- call (CGitDiffStat repoDir) ;;
     ret (join [LF] (filter (fun s => nonEmpty s = true) [trim nameStatus; trim stats])))
    (fun _ => ret []).

Definition formatDate (date : Date) : jsstring :=
  let year := String_of_Z (getFullYear date) in
  let month := padStart0 2 (String_of_Z (getMonth date + 1)) in
  let day := padStart0 2 (String_of_Z (getDate date)) in
  year ++ lit "-" ++ month ++ lit "-" ++ day.

Definition fallbackMessage (fallbackDate : Date) : jsstring :=
  lit "Sync OpenCode config (" ++ formatDate fallbackDate ++ lit ")".

Definition commitPrompt (diffSummary : jsstring) : jsstring :=
  join [LF]
    [ lit "Generate a concise single-line git commit message (max 72 chars).";
      lit "Focus on OpenCode config sync changes.";
      lit "Return only the message, no quotes.";
      [];
      lit "Diff summary:";
      diffSummary ].

(** [unwrapData(sessionResult)?.id ?? null] *)
Definition sessionIdOf (sessionResult : JsValue) : JsValue :=
  nullish_or (optChain (unwrapData sessionResult) "id") JNull.

(** The [finally] block: delete the session when an id was obtained,
    ignoring a failure of the delete call. *)
Definition releaseSession (sessionId : JsValue) : M unit :=
  if truthy sessionId then
    tryCatch (call (CSessionDelete sessionId) ;;; ret tt) (fun _ => ret tt)
  else ret tt.

(** [generateCommitMessage(ctx, repoDir, fallbackDate = new Date())]; the
    context's [client] and [$] are the oracle.  [sessionId] is [null]
    until [session.create] has returned, so a throw of that first
    statement of the [try] block is caught with nothing to release; from
    the assignment on, the rest of the block runs under the same [catch]
    and the [finally] sees the assigned id. *)
Definition generateCommitMessage (repoDir : jsstring) (fallbackDate : option Date)
  : M jsstring :=
  date <- match fallbackDate with Some d => ret d | None => now end ;;
  let fallback := fallbackMessage date in
  diffSummary <- getDiffSummary repoDir ;;
  if negb (nonEmpty diffSummary) then ret fallback
  else
    model <- resolveSmallModel ;;
    match model with
    | None => ret fallback
    | Some model =>
        let prompt := commitPrompt diffSummary in
        created <- attempt (call (CSessionCreate (lit "opencode-sync"))) ;;
        match created with
        | Err _ => ret fallback
        | Ok sessionResult =>
            let sessionId := sessionIdOf sessionResult in
            tryFinally
              (tryCatch
                 (if negb (truthy sessionId) then ret fallback
                  else
                    response <- call (CSessionPrompt sessionId model prompt) ;;
                    message <- liftR (extractMessage
                                        (nullish_or (unwrapData response) response)) ;;
                    match message with
                    | None => ret fallback
                    | Some message =>
                        if negb (nonEmpty message) then ret fallback
                        else
                          let sanitized := sanitizeMessage message in
                          ret (if nonEmpty sanitized then sanitized else fallback)
                    end)
                 (fun _ => ret fallback))
              (releaseSession sessionId)
        end
    end.

(* ===================================================================== *)
(** * paths.ts: the planner *)
(* ===================================================================== *)

(** [path.join] of two segments on the given platform. *)
Definition pathJoin (platform a b : jsstring) : jsstring :=
  a ++ (if bool_decide (platform = lit "win32") then [92] else [47]) ++ b.

(** The well-known regular paths, relative to the configuration root. *)
Definition regularCatalog : list jsstring :=
  [ lit "opencode.json"; lit "opencode.jsonc"; lit "AGENTS.md";
    lit "agent"; lit "command"; lit "mode"; lit "tool"; lit "themes";
    lit "plugin" ].

(** The well-known secret paths, relative to OpenCode's data directory. *)
Definition secretCatalog : list jsstring :=
  [ lit "auth.json"; lit "mcp-auth.json" ].

(** Modelled from the spec: [buildSyncPlan] of [paths.ts], which is not
    among the sources (only its test is).  Section 4.1: start from the
    fixed catalog of regular paths mapped to matching repo-relative paths;
    if [config.includeSecrets] is true append the fixed catalog of secret
    paths marked [isSecret = true] and append each entry of
    [extraSecretPaths] to the allowlist; if false add neither.  The catalog
    entries are those the README lists. *)
Definition buildSyncPlan (config : SyncConfig) (locations : SyncLocations)
    (repoRoot platform : jsstring) : SyncPlan :=
  let regular :=
    map (fun name => mkSyncItem (pathJoin platform (configRoot locations) name) name false)
        regularCatalog in
  let secret :=
    map (fun name =>
           mkSyncItem
             (pathJoin platform (pathJoin platform (dataDir locations) (lit "opencode")) name)
             name true)
        secretCatalog in
  if includeSecrets config
  then mkSyncPlan (regular ++ secret) (extraSecretPaths config)
  else mkSyncPlan regular [].

(* ===================================================================== *)
(** * config.ts: the persisted documents *)
(* ===================================================================== *)

Definition emptyState : SyncState := mkSyncState None None None.

(** A field of the patch, when present, replaces the stored field
    wholesale; an absent field leaves the stored one alone. *)
Definition mergeState (stored patch : SyncState) : SyncState :=
  mkSyncState
    (match lastPull patch with Some t => Some t | None => lastPull stored end)
    (match lastPush patch with Some t => Some t | None => lastPush stored end)
    (match lastRemoteUpdate patch with
     | Some t => Some t
     | None => lastRemoteUpdate stored
     end).

Definition setConfigFiles (f : gmap jsstring SyncConfig -> gmap jsstring SyncConfig)
    (w : World) : World :=
  mkWorld (w_env w) (f (w_configFiles w)) (w_stateFiles w) (w_trace w).

Definition setStateFiles (f : gmap jsstring SyncState -> gmap jsstring SyncState)
    (w : World) : World :=
  mkWorld (w_env w) (w_configFiles w) (f (w_stateFiles w)) (w_trace w).

(** Modelled from the spec: [loadSyncConfig] of [config.ts], which is not
    among the sources.  The sync config file is one persisted document;
    a missing file is "no configuration".  The read itself may fail. *)
Definition loadSyncConfig (locations : SyncLocations) : M (option SyncConfig) :=
  call (CLoadSyncConfig locations) ;;;
  gets (fun w => w_configFiles w !! syncConfigPath locations).

(** Modelled from the spec: [writeSyncConfig] of [config.ts], which is not
    among the sources.  The document is replaced when the write succeeds
    and untouched when it throws. *)
Definition writeSyncConfig (locations : SyncLocations) (config : SyncConfig) : M unit :=
  call (CWriteSyncConfig locations config) ;;;
  modify (setConfigFiles (insert (syncConfigPath locations) config)).

(** Modelled from the spec: [loadState] of [config.ts], which is not
    among the sources.  A machine that never synced has no field set. *)
Definition loadState (locations : SyncLocations) : M SyncState :=
  call (CLoadState locations) ;;;
  gets (fun w => default emptyState (w_stateFiles w !! statePath locations)).

(** Modelled from the spec: [writeState] of [config.ts], which is not
    among the sources.  Section 3: "each field is replaced wholesale on
    success, never partially merged", and the state is "never partially
    written": a write that throws leaves the stored state as it was. *)
Definition writeState (locations : SyncLocations) (patch : SyncState) : M unit :=
  call (CWriteState locations patch) ;;;
  modify (setStateFiles (fun files =>
    <[statePath locations :=
        mergeState (default emptyState (files !! statePath locations)) patch]> files)).

Definition loadOverrides (locations : SyncLocations) : M JsValue :=
  call (CLoadOverrides locations).

(* ===================================================================== *)
(** * The helpers the service imports without their bodies *)
(* ===================================================================== *)

(** Pure helpers of [paths.ts], [config.ts] and [repo.ts] that
    [service.ts] calls and whose bodies are not among the sources: the
    service is verified for every choice of them. *)
Class SyncDeps := {
  resolveSyncLocations : ProcessEnv -> SyncLocations;
  resolveRepoRoot : SyncConfig -> SyncLocations -> jsstring;
  normalizeSyncConfig : SyncConfig -> SyncConfig;
  resolveRepoBranch : SyncConfig -> option jsstring -> jsstring;
  resolveRepoIdentifier : SyncConfig -> jsstring
}.

(* ===================================================================== *)
(** * service.ts: the orchestrator *)
(* ===================================================================== *)

Section Service.
Context {deps : SyncDeps}.

Definition showToast (message : jsstring) (variant : ToastVariant) : M unit :=
  call (CShowToast (lit "opencode-sync: " ++ message) variant).

(** [new Date().toISOString()] *)
Definition nowISO : M jsstring := d <- now ;; ret (toISOString d).

Definition getConfigOrThrow (locations : SyncLocations) : M SyncConfig :=
  config <- loadSyncConfig locations ;;
  match config with
  | None =>
      throw (mkExn SyncConfigMissingError
               (lit "Missing opencode-sync config. Run /opencode-sync-init to set it up."))
  | Some config => ret config
  end.

Definition ensureSecretsPolicy (config : SyncConfig) : M unit :=
  if negb (includeSecrets config) then ret tt
  else call (CEnsureRepoPrivate config).

Definition resolveBranch (config : SyncConfig) (repoRoot : jsstring) : M jsstring :=
  tryCatch
    (status <- call (CGetRepoStatus repoRoot) ;;
     ret (resolveRepoBranch config (Some (status_branch status))))
    (fun _ => ret (resolveRepoBranch config None)).

Definition resolveRepoFromInit (options : InitOptions) : option RepoRef :=
  if truthyOpt (opt_url options) then
    Some (mkRepoRef None None (opt_url options) (opt_branch options))
  else if truthyOpt (opt_owner options) && truthyOpt (opt_name options) then
    Some (mkRepoRef (opt_owner options) (opt_name options) None (opt_branch options))
  else
    match opt_repo options with
    | Some r =>
        if negb (nonEmpty r) then None
        else if includes (lit "://") r || endsWith (lit ".git") r then
          Some (mkRepoRef None None (Some r) (opt_branch options))
        else
          (* const [owner, name] = options.repo.split('/') *)
          let segments := split 47 r in
          let owner := segments !! 0%nat in
          let name := segments !! 1%nat in
          if truthyOpt owner && truthyOpt name
          then Some (mkRepoRef owner name None (opt_branch options))
          else None
    | None => None
    end.

Definition buildConfigFromInit (options : InitOptions) : SyncConfig :=
  let repo := resolveRepoFromInit options in
  normalizeSyncConfig
    (mkSyncConfig repo
       (default false (opt_includeSecrets options))
       (default [] (opt_extraSecretPaths options))
       (opt_localRepoPath options)).

Definition createRepo (config : SyncConfig) (isPrivate : bool) : M unit :=
  let owner := r ← repo config; repo_owner r in
  let name := r ← repo config; repo_name r in
  if negb (truthyOpt owner) || negb (truthyOpt name) then
    throw (mkExn SyncCommandError (lit "Repo creation requires owner/name."))
  else
    let visibility := if isPrivate then lit "--private" else lit "--public" in
    tryCatch
      (call (CGhRepoCreate (default [] owner) (default [] name) visibility))
      (fun error =>
         throw (mkExn SyncCommandError
                  (lit "Failed to create repo: " ++ formatError error))).

Definition dirtyMessage (repoRoot : jsstring) (action : String.string) : jsstring :=
  lit "Local sync repo has uncommitted changes. Resolve in " ++ repoRoot
  ++ lit " before " ++ lit action ++ lit ".".

Definition runStartup (locations : SyncLocations) (config : SyncConfig) : M unit :=
  let repoRoot := resolveRepoRoot config locations in
  call (CEnsureRepoCloned config repoRoot) ;;;
  ensureSecretsPolicy config ;;;
  branch <- resolveBranch config repoRoot ;;
  dirty <- call (CHasLocalChanges repoRoot) ;;
  if dirty then
    showToast
      (lit "Local sync repo has uncommitted changes in " ++ repoRoot
       ++ lit ". Resolve before sync.")
      warning
  else
    update <- call (CFetchAndFastForward repoRoot branch) ;;
    if updated update then
      overrides <- loadOverrides locations ;;
      platform <- gets (fun w => platform (w_env w)) ;;
      let plan := buildSyncPlan config locations repoRoot platform in
      call (CSyncRepoToLocal plan overrides) ;;;
      pulledAt <- nowISO ;;
      remoteAt <- nowISO ;;
      writeState locations (mkSyncState (Some pulledAt) None (Some remoteAt)) ;;;
      showToast (lit "Config updated. Restart OpenCode to apply.") info
    else
      overrides <- loadOverrides locations ;;
      platform <- gets (fun w => platform (w_env w)) ;;
      let plan := buildSyncPlan config locations repoRoot platform in
      call (CSyncLocalToRepo plan overrides) ;;;
      changes <- call (CHasLocalChanges repoRoot) ;;
      if negb changes then ret tt
      else
        message <- generateCommitMessage repoRoot None ;;
        call (CCommitAll repoRoot message) ;;;
        call (CPushBranch repoRoot branch) ;;;
        pushedAt <- nowISO ;;
        writeState locations (mkSyncState None (Some pushedAt) None).

Definition startupSync (locations : SyncLocations) : M unit :=
  config <- loadSyncConfig locations ;;
  match config with
  | None => showToast (lit "Configure opencode-sync with /opencode-sync-init.") info
  | Some config =>
      tryCatch (runStartup locations config)
               (fun caught => showToast (formatError caught) error)
  end.

Definition status (locations : SyncLocations) : M jsstring :=
  config <- loadSyncConfig locations ;;
  match config with
  | None =>
      ret (lit "opencode-sync is not configured. Run /opencode-sync-init to set it up.")
  | Some config =>
      let repoRoot := resolveRepoRoot config locations in
      state <- loadState locations ;;
      cloned <- call (CIsRepoCloned repoRoot) ;;
      observed <-
        (if negb cloned then
           ret ([lit "Repo not cloned"], resolveRepoBranch config None)
         else
           tryCatch
             (status <- call (CGetRepoStatus repoRoot) ;;
              ret (status_changes status, status_branch status))
             (fun _ => ret ([lit "Repo status unavailable"],
                            resolveRepoBranch config None))) ;;
      let repoStatus := fst observed in
      let branch := snd observed in
      let repoIdentifier := resolveRepoIdentifier config in
      let includeSecrets :=
        if includeSecrets config then lit "enabled" else lit "disabled" in
      let lastPull := default (lit "never") (lastPull state) in
      let lastPush := default (lit "never") (lastPush state) in
      let changesLabel :=
        if negb cloned then lit "not cloned"
        else if (0 <? length repoStatus)%nat then
          if bool_decide (repoStatus !! 0%nat = Some (lit "Repo status unavailable"))
          then lit "unknown"
          else String_of_Z (Z.of_nat (length repoStatus)) ++ lit " pending"
        else lit "clean" in
      ret (join [LF]
             [ lit "Repo: " ++ repoIdentifier;
               lit "Branch: " ++ branch;
               lit "Secrets: " ++ includeSecrets;
               lit "Last pull: " ++ lastPull;
               lit "Last push: " ++ lastPush;
               lit "Working tree: " ++ changesLabel ])
  end.

Definition init (locations : SyncLocations) (options : InitOptions) : M jsstring :=
  let config := buildConfigFromInit options in
  match repo config with
  | None =>
      throw (mkExn SyncCommandError
               (lit "Provide repo info (owner/name or URL) to initialize sync."))
  | Some _ =>
      let repoIdentifier := resolveRepoIdentifier config in
      (if default false (opt_create options)
       then createRepo config (default true (opt_private options))
       else ret tt) ;;;
      writeSyncConfig locations config ;;;
      let repoRoot := resolveRepoRoot config locations in
      call (CEnsureRepoCloned config repoRoot) ;;;
      ensureSecretsPolicy config ;;;
      ret (join [LF]
             [ lit "opencode-sync configured.";
               lit "Repo: " ++ repoIdentifier;
               lit "Branch: " ++ resolveRepoBranch config None;
               lit "Local repo: " ++ repoRoot ])
  end.

Definition pull (locations : SyncLocations) : M jsstring :=
  config <- getConfigOrThrow locations ;;
  let repoRoot := resolveRepoRoot config locations in
  call (CEnsureRepoCloned config repoRoot) ;;;
  ensureSecretsPolicy config ;;;
  branch <- resolveBranch config repoRoot ;;
  dirty <- call (CHasLocalChanges repoRoot) ;;
  if dirty then
    throw (mkExn SyncCommandError (dirtyMessage repoRoot "pulling"))
  else
    update <- call (CFetchAndFastForward repoRoot branch) ;;
    if negb (updated update) then ret (lit "Already up to date.")
    else
      overrides <- loadOverrides locations ;;
      platform <- gets (fun w => platform (w_env w)) ;;
      let plan := buildSyncPlan config locations repoRoot platform in
      call (CSyncRepoToLocal plan overrides) ;;;
      pulledAt <- nowISO ;;
      remoteAt <- nowISO ;;
      writeState locations (mkSyncState (Some pulledAt) None (Some remoteAt)) ;;;
      showToast (lit "Config updated. Restart OpenCode to apply.") info ;;;
      ret (lit "Remote config applied. Restart OpenCode to use new settings.").

Definition push (locations : SyncLocations) : M jsstring :=
  config <- getConfigOrThrow locations ;;
  let repoRoot := resolveRepoRoot config locations in
  call (CEnsureRepoCloned config repoRoot) ;;;
  ensureSecretsPolicy config ;;;
  branch <- resolveBranch config repoRoot ;;
  preDirty <- call (CHasLocalChanges repoRoot) ;;
  if preDirty then
    throw (mkExn SyncCommandError (dirtyMessage repoRoot "pushing"))
  else
    overrides <- loadOverrides locations ;;
    platform <- gets (fun w => platform (w_env w)) ;;
    let plan := buildSyncPlan config locations repoRoot platform in
    call (CSyncLocalToRepo plan overrides) ;;;
    dirty <- call (CHasLocalChanges repoRoot) ;;
    if negb dirty then ret (lit "No local changes to push.")
    else
      message <- generateCommitMessage repoRoot None ;;
      call (CCommitAll repoRoot message) ;;;
      call (CPushBranch repoRoot branch) ;;;
      pushedAt <- nowISO ;;
      writeState locations (mkSyncState None (Some pushedAt) None) ;;;
      ret (lit "Pushed changes: " ++ message).

Definition enableSecrets (locations : SyncLocations)
    (extraPaths : option (list jsstring)) : M jsstring :=
  config <- getConfigOrThrow locations ;;
  (* config.includeSecrets = true *)
  let config :=
    mkSyncConfig (repo config) true (extraSecretPaths config) (localRepoPath config) in
  (* if (extraSecretPaths) config.extraSecretPaths = extraSecretPaths *)
  let config :=
    match extraPaths with
    | Some paths =>
        mkSyncConfig (repo config) (includeSecrets config) paths (localRepoPath config)
    | None => config
    end in
  call (CEnsureRepoPrivate config) ;;;
  writeSyncConfig locations config ;;;
  ret (lit "Secrets sync enabled for this repo.").

(** The object [createSyncService] returns. *)
Record SyncService := mkSyncService {
  svc_startupSync : M unit;
  svc_status : M jsstring;
  svc_init : InitOptions -> M jsstring;
  svc_pull : M jsstring;
  svc_push : M jsstring;
  svc_enableSecrets : option (list jsstring) -> M jsstring
}.

(** [createSyncService(ctx)]: [resolveSyncLocations()] reads the process
    environment once, here; the six operations close over its result. *)
Definition createSyncService : M SyncService :=
  locations <- gets (fun w => resolveSyncLocations (w_env w)) ;;
  ret (mkSyncService
         (startupSync locations)
         (status locations)
         (init locations)
         (pull locations)
         (push locations)
         (enableSecrets locations)).

End Service.

(* ===================================================================== *)
(** * Reading traces *)
(* ===================================================================== *)

(** The world after a run that made the calls [evs] and wrote no file. *)
Definition extend (w : World) (evs : list Event) : World :=
  mkWorld (w_env w) (w_configFiles w) (w_stateFiles w) (w_trace w ++ evs).

Definition isOk (e : Event) : bool :=
  match e with
  | Ev _ (Ok _) => true
  | Ev _ (Err _) => false
  end.

Definition isDeleteCall {A} (c : Call A) : bool :=
  match c with CSessionDelete _ => true | _ => false end.

Definition isSessionDelete (e : Event) : bool :=
  match e with Ev c _ => isDeleteCall c end.

(** The calls the commit-message generator makes. *)
Definition generatorEvent (e : Event) : bool :=
  match e with
  | Ev c _ =>
      match c with
      | CNow | CGitDiffNameStatus _ | CGitDiffStat _ | CConfigGet
      | CSessionCreate _ | CSessionPrompt _ _ _ | CSessionDelete _ => true
      | _ => false
      end
  end.

Definition isStateWrite (e : Event) : bool :=
  match e with Ev c _ => match c with CWriteState _ _ => true | _ => false end end.

Definition isConfigWrite (e : Event) : bool :=
  match e with Ev c _ => match c with CWriteSyncConfig _ _ => true | _ => false end end.

Definition isRepoToLocal (e : Event) : bool :=
  match e with Ev c _ => match c with CSyncRepoToLocal _ _ => true | _ => false end end.

Definition isLocalToRepo (e : Event) : bool :=
  match e with Ev c _ => match c with CSyncLocalToRepo _ _ => true | _ => false end end.

Definition isFetch (e : Event) : bool :=
  match e with Ev c _ => match c with CFetchAndFastForward _ _ => true | _ => false end end.

Definition isCommit (e : Event) : bool :=
  match e with Ev c _ => match c with CCommitAll _ _ => true | _ => false end end.

Definition isPush (e : Event) : bool :=
  match e with Ev c _ => match c with CPushBranch _ _ => true | _ => false end end.

Definition isToast (e : Event) : bool :=
  match e with Ev c _ => match c with CShowToast _ _ => true | _ => false end end.

(** Reconciliation in either direction, fetching, committing, pushing and
    writing either persisted document. *)
Definition mutating (e : Event) : bool :=
  isStateWrite e || isConfigWrite e || isRepoToLocal e || isLocalToRepo e
  || isFetch e || isCommit e || isPush e.

(** No event of [evs] satisfies [p]. *)
Definition none (p : Event -> bool) (evs : list Event) : bool :=
  forallb (fun e => negb (p e)) evs.

(** Some event of [evs] satisfies [p] and came back normally. *)
Definition completed (p : Event -> bool) (evs : list Event) : bool :=
  existsb (fun e => p e && isOk e) evs.

(** What [hasLocalChanges] was asked and answered. *)
Definition dirtyAnswer (e : Event) : option (jsstring * Result bool) :=
  match e with
  | Ev c r =>
      match c in Call T return Result T -> option (jsstring * Result bool) with
      | CHasLocalChanges repoRoot => fun r => Some (repoRoot, r)
      | _ => fun _ => None
      end r
  end.

Definition dirtyChecks (evs : list Event) : list (jsstring * Result bool) :=
  omap dirtyAnswer evs.

(** How [ensureRepoPrivate] came back. *)
Definition privacyAnswer (e : Event) : option (Result unit) :=
  match e with
  | Ev c r =>
      match c in Call T return Result T -> option (Result unit) with
      | CEnsureRepoPrivate _ => fun r => Some r
      | _ => fun _ => None
      end r
  end.

Definition privacyChecks (evs : list Event) : list (Result unit) :=
  omap privacyAnswer evs.

(** How [fetchAndFastForward] came back. *)
Definition fetchAnswer (e : Event) : option (Result FetchResult) :=
  match e with
  | Ev c r =>
      match c in Call T return Result T -> option (Result FetchResult) with
      | CFetchAndFastForward _ _ => fun r => Some r
      | _ => fun _ => None
      end r
  end.

Definition fetches (evs : list Event) : list (Result FetchResult) :=
  omap fetchAnswer evs.

(** The patch of a [writeState] call. *)
Definition statePatch (e : Event) : option SyncState :=
  match e with
  | Ev c _ =>
      match c with
      | CWriteState _ patch => Some patch
      | _ => None
      end
  end.

(** The plan handed to a reconciliation call. *)
Definition reconciledPlan (e : Event) : option SyncPlan :=
  match e with
  | Ev c _ =>
      match c with
      | CSyncRepoToLocal plan _ | CSyncLocalToRepo plan _ => Some plan
      | _ => None
      end
  end.

(** The locations a [loadSyncConfig] call reads. *)
Definition loadedFrom (e : Event) : option SyncLocations :=
  match e with
  | Ev c _ =>
      match c with
      | CLoadSyncConfig loc => Some loc
      | _ => None
      end
  end.

(** The id a successful [session.create] yielded, when it is truthy. *)
Definition createdSessionId (e : Event) : option JsValue :=
  match e with
  | Ev c r =>
      match c in Call T return Result T -> option JsValue with
      | CSessionCreate _ =>
          fun r =>
            match r with
            | Ok sessionResult =>
                if truthy (sessionIdOf sessionResult)
                then Some (sessionIdOf sessionResult) else None
            | Err _ => None
            end
      | _ => fun _ => None
      end r
  end.

Definition obtainedSessionId (evs : list Event) : option JsValue :=
  head (omap createdSessionId evs).

(** Two sets of collaborators that differ at most in how
    [session.delete] comes back. *)
Definition agreeExceptDelete (o1 o2 : Oracle) : Prop :=
  (forall h, clock o1 h = clock o2 h)
  /\ forall A h (c : Call A),
       isDeleteCall c = false -> answer o1 A h c = answer o2 A h c.

(** The persisted [SyncState] of a service at [locations]. *)
Definition persisted (locations : SyncLocations) (w : World) : SyncState :=
  default emptyState (w_stateFiles w !! statePath locations).

(* ===================================================================== *)
(** * The generator's outcomes *)
(* ===================================================================== *)

Definition stringOrAbsent (v : JsValue) : bool :=
  match v with
  | JUndefined | JNull | JStr _ => true
  | _ => false
  end.


Definition illTypedConfig (o : Oracle) : Prop :=
  exists h response,
    answer o JsValue h CConfigGet = Ok response
    /\ stringOrAbsent (nullish_or (getProp (unwrapData response) "small_model")
                                  (getProp (unwrapData response) "model")) = false.

(** The date the fallback message carries: the argument, or [new Date()]
    read when the call starts. *)
Definition dateOf (fd : option Date) (o : Oracle) (w : World) : Date :=
  match fd with Some d => d | None => clock o (w_trace w) end.

Definition clockEvents (fd : option Date) (o : Oracle) (w : World) : list Event :=
  match fd with Some _ => [] | None => [Ev CNow (Ok (clock o (w_trace w)))] end.

Definition diffSummaryOf (nameStatus stats : jsstring) : jsstring :=
  join [LF] (filter (fun s => nonEmpty s = true) [trim nameStatus; trim stats]).

(** The one run on which the generator returns something else than the
    fallback: every step succeeded, and the message is the sanitized first
    text part of the prompt's response. *)
Definition successPath (repoDir : jsstring) (pre evs : list Event) (m : jsstring) : Prop :=
  exists nameStatus stats configResponse model sessionResult promptResponse message deleted,
    evs = pre ++
          [ Ev (CGitDiffNameStatus repoDir) (Ok nameStatus);
            Ev (CGitDiffStat repoDir) (Ok stats);
            Ev CConfigGet (Ok configResponse);
            Ev (CSessionCreate (lit "opencode-sync")) (Ok sessionResult);
            Ev (CSessionPrompt (sessionIdOf sessionResult) model
                  (commitPrompt (diffSummaryOf nameStatus stats)))
               (Ok promptResponse);
            Ev (CSessionDelete (sessionIdOf sessionResult)) deleted ]
    /\ nonEmpty (diffSummaryOf nameStatus stats) = true
    /\ truthy (sessionIdOf sessionResult) = true
    /\ extractMessage (nullish_or (unwrapData promptResponse) promptResponse)
       = Ok (Some message)
    /\ nonEmpty message = true
    /\ m = sanitizeMessage message
    /\ nonEmpty m = true.






(* ===================================================================== *)
(** * Reading the orchestrator's runs *)
(* ===================================================================== *)

(** The toast of the startup flow on a dirty repository, as
    [showToast] sends it. *)
Definition startupDirtyToast (root : jsstring) : jsstring :=
  lit "opencode-sync: "
  ++ (lit "Local sync repo has uncommitted changes in " ++ root
      ++ lit ". Resolve before sync.").

Definition restartToast : jsstring :=
  lit "opencode-sync: " ++ lit "Config updated. Restart OpenCode to apply.".

Definition commitsOrPushes (e : Event) : bool :=
  isCommit e || isPush e || isStateWrite e.

(** One of the steps whose completion a state write records came back
    with an error. *)
Definition failedStep (e : Event) : bool :=
  (isFetch e || isRepoToLocal e || isLocalToRepo e || isCommit e || isPush e)
  && negb (isOk e).

(** The state file after a successful [writeState] of [patch]. *)
Definition stateFilesAfter (locations : SyncLocations) (patch : SyncState)
    (w : World) : gmap jsstring SyncState :=
  <[statePath locations := mergeState (persisted locations w) patch]> (w_stateFiles w).

(** The events of a run that precede its first event satisfying [p]. *)
Fixpoint beforeFirst (p : Event -> bool) (evs : list Event) : list Event :=
  match evs with
  | [] => []
  | e :: rest => if p e then [] else e :: beforeFirst p rest
  end.

(** The patches of the [writeState] calls of a run, in order. *)
Definition statePatches (evs : list Event) : list SyncState := omap statePatch evs.

(* ===================================================================== *)
(** * Scripted collaborators and sample data, for concrete runs *)
(* ===================================================================== *)

Fixpoint countEvents (p : Event -> bool) (h : list Event) : nat :=
  match h with
  | [] => 0%nat
  | e :: rest => ((if p e then 1 else 0) + countEvents p rest)%nat
  end.

Definition isDirtyCheck (e : Event) : bool :=
  match e with Ev c _ => match c with CHasLocalChanges _ => true | _ => false end end.

(** What the scripted collaborators answer; every call not listed here
    succeeds. *)
Record Script := mkScript {
  s_private : Result unit;       (* ensureRepoPrivate *)
  s_dirty : list bool;           (* hasLocalChanges, call after call *)
  s_updated : bool;              (* fetchAndFastForward *)
  s_configGet : Result JsValue;  (* client.config.get *)
  s_create : Result JsValue;     (* client.session.create *)
  s_prompt : Result JsValue;     (* client.session.prompt *)
  s_delete : Result JsValue;     (* client.session.delete *)
  s_toast : Result unit;         (* client.tui.showToast *)
  s_commit : Result unit;        (* commitAll *)
  s_today : Date
}.

Definition scripted (s : Script) : Oracle :=
  mkOracle
    (fun A h c =>
       match c in Call T return Result T with
       | CLoadSyncConfig _ => Ok tt
       | CWriteSyncConfig _ _ => Ok tt
       | CLoadState _ => Ok tt
       | CWriteState _ _ => Ok tt
       | CLoadOverrides _ => Ok (JObj [])
       | CSyncRepoToLocal _ _ => Ok tt
       | CSyncLocalToRepo _ _ => Ok tt
       | CEnsureRepoCloned _ _ => Ok tt
       | CEnsureRepoPrivate _ => s_private s
       | CFetchAndFastForward _ _ => Ok (mkFetchResult (s_updated s))
       | CGetRepoStatus _ => Ok (mkRepoStatus (lit "main") [])
       | CHasLocalChanges _ => Ok (nth (countEvents isDirtyCheck h) (s_dirty s) false)
       | CIsRepoCloned _ => Ok true
       | CCommitAll _ _ => s_commit s
       | CPushBranch _ _ => Ok tt
       | CGhRepoCreate _ _ _ => Ok tt
       | CGitDiffNameStatus _ => Ok (lit "M	opencode.json")
       | CGitDiffStat _ => Ok (lit " opencode.json | 2 +-")
       | CConfigGet => s_configGet s
       | CSessionCreate _ => s_create s
       | CSessionPrompt _ _ _ => s_prompt s
       | CSessionDelete _ => s_delete s
       | CShowToast _ _ => s_toast s
       | CNow => Ok (s_today s)
       end)
    (fun _ => s_today s).

Definition today : Date := mkDate 2026 10 2 (lit "2026-11-02T09:30:00.000Z").

Definition notPrivate : Exn :=
  mkExn SyncCommandError (lit "Secrets sync requires a private repository.").

Definition unreachable : Exn := mkExn OtherError (lit "fetch failed").

Definition rejected : Exn := mkExn OtherError (lit "nothing to commit").

Definition dataOf (v : JsValue) : JsValue := JObj [(lit "data", v)].

Definition modelConfig : JsValue :=
  dataOf (JObj [(lit "small_model", JStr (lit "acme/small"))]).

Definition sessionCreated : JsValue :=
  dataOf (JObj [(lit "id", JStr (lit "ses_1"))]).

(** A reply whose text is quoted and runs over two lines. *)
Definition promptReply : JsValue :=
  dataOf (JObj [(lit "parts",
                 JArr [JObj [(lit "type", JStr (lit "text"));
                             (lit "text",
                              JStr (lit " 'Update agent settings' " ++ [LF]
                                    ++ lit "Second line"))]])]).

(** Everything succeeds, the tree is clean, nothing is new upstream. *)
Definition quietScript : Script :=
  mkScript (Ok tt) [] false (Ok modelConfig) (Ok sessionCreated) (Ok promptReply)
           (Ok JNull) (Ok tt) (Ok tt) today.

(** The remote is public. *)
Definition publicRepoScript : Script :=
  mkScript (Err notPrivate) [] false (Ok modelConfig) (Ok sessionCreated)
           (Ok promptReply) (Ok JNull) (Ok tt) (Ok tt) today.

(** The working tree is dirty. *)
Definition dirtyScript : Script :=
  mkScript (Ok tt) [true] false (Ok modelConfig) (Ok sessionCreated)
           (Ok promptReply) (Ok JNull) (Ok tt) (Ok tt) today.

(** The fetch brings an update. *)
Definition updatedScript : Script :=
  mkScript (Ok tt) [] true (Ok modelConfig) (Ok sessionCreated) (Ok promptReply)
           (Ok JNull) (Ok tt) (Ok tt) today.

(** Local edits reach the clone: the second dirty check answers true. *)
Definition localEditScript : Script :=
  mkScript (Ok tt) [false; true] false (Ok modelConfig) (Ok sessionCreated)
           (Ok promptReply) (Ok JNull) (Ok tt) (Ok tt) today.

(** As [localEditScript], with a prompt that throws and a delete that
    throws. *)
Definition brokenModelScript : Script :=
  mkScript (Ok tt) [false; true] false (Ok modelConfig) (Ok sessionCreated)
           (Err unreachable) (Err unreachable) (Ok tt) (Ok tt) today.

(** As [localEditScript], with a delete that throws. *)
Definition brokenDeleteScript : Script :=
  mkScript (Ok tt) [false; true] false (Ok modelConfig) (Ok sessionCreated)
           (Ok promptReply) (Err unreachable) (Ok tt) (Ok tt) today.

(** As [localEditScript], with a commit that fails. *)
Definition failedCommitScript : Script :=
  mkScript (Ok tt) [false; true] false (Ok modelConfig) (Ok sessionCreated)
           (Ok promptReply) (Ok JNull) (Ok tt) (Err rejected) today.

(** An instance of the imported helpers that agrees with
    [paths.test.ts] on Linux ([HOME], [OPENCODE_CONFIG_DIR]) and with the
    paths the README gives. *)
Definition exampleLocations (p : ProcessEnv) : SyncLocations :=
  let home := default [] (vars p !! lit "HOME") in
  let configDir := home ++ lit "/.config" in
  let data := home ++ lit "/.local/share" in
  let root := default (configDir ++ lit "/opencode")
                      (vars p !! lit "OPENCODE_CONFIG_DIR") in
  mkSyncLocations root data
    (root ++ lit "/opencode-sync.jsonc")
    (root ++ lit "/opencode-sync.overrides.jsonc")
    (data ++ lit "/opencode/opencode-sync/state.json")
    (data ++ lit "/opencode/opencode-sync/repo").

Definition exampleIdentifier (config : SyncConfig) : jsstring :=
  match repo config with
  | Some r =>
      match repo_url r with
      | Some url => url
      | None => default [] (repo_owner r) ++ lit "/" ++ default [] (repo_name r)
      end
  | None => []
  end.

Definition exampleBranch (config : SyncConfig) (observed : option jsstring) : jsstring :=
  match r ← repo config; repo_branch r with
  | Some b => b
  | None => default (lit "main") observed
  end.

Definition exampleDeps : SyncDeps := {|
  resolveSyncLocations := exampleLocations;
  resolveRepoRoot := fun config locations =>
    default (defaultRepoRoot locations) (localRepoPath config);
  normalizeSyncConfig := fun config => config;
  resolveRepoBranch := exampleBranch;
  resolveRepoIdentifier := exampleIdentifier
|}.

Definition homeEnv : ProcessEnv :=
  mkProcessEnv {[ lit "HOME" := lit "/home/test" ]} (lit "linux").

Definition customEnv : ProcessEnv :=
  mkProcessEnv {[ lit "HOME" := lit "/home/test";
                  lit "OPENCODE_CONFIG_DIR" := lit "/custom/opencode" ]}
               (lit "linux").

Definition homeLocations : SyncLocations := exampleLocations homeEnv.

Definition acmeRepo : RepoRef :=
  mkRepoRef (Some (lit "acme")) (Some (lit "config")) None None.

Definition plainConfig : SyncConfig :=
  mkSyncConfig (Some acmeRepo) false [lit "/home/test/.ssh/id_rsa"] None.

Definition secretConfig : SyncConfig :=
  mkSyncConfig (Some acmeRepo) true [lit "/home/test/.ssh/id_rsa"] None.

Definition secretInit : InitOptions :=
  mkInitOptions None (Some (lit "acme")) (Some (lit "config")) None None
                (Some true) None None (Some [lit "/home/test/.ssh/id_rsa"]) None.

Definition storedState : SyncState :=
  mkSyncState (Some (lit "2026-10-30T08:00:00.000Z"))
              (Some (lit "2026-10-31T08:00:00.000Z"))
              (Some (lit "2026-10-30T08:00:00.000Z")).

(** A machine that was never configured. *)
Definition freshWorld : World := mkWorld homeEnv ∅ ∅ [].

Definition configuredWorld (config : SyncConfig) : World :=
  mkWorld homeEnv
    {[ syncConfigPath homeLocations := config ]}
    {[ statePath homeLocations := storedState ]}
    [].

(** The same machine after [OPENCODE_CONFIG_DIR] was set and a
    configuration was written under it. *)
Definition relocatedWorld : World :=
  mkWorld customEnv
    {[ syncConfigPath (exampleLocations customEnv) := plainConfig ]}
    ∅ [].

(* ===================================================================== *)
(** * Further trace readers *)
(* ===================================================================== *)

(** A call to the plugin client other than a toast: [config.get] or one of
    the session calls. *)
Definition isClientCall (e : Event) : bool :=
  match e with
  | Ev c _ =>
      match c with
      | CConfigGet | CSessionCreate _ | CSessionPrompt _ _ _ | CSessionDelete _ => true
      | _ => false
      end
  end.

Definition isSessionCall (e : Event) : bool :=
  match e with
  | Ev c _ =>
      match c with
      | CSessionCreate _ | CSessionPrompt _ _ _ | CSessionDelete _ => true
      | _ => false
      end
  end.

(** What the two [git diff] calls printed. *)
Definition diffOutput (e : Event) : option (Result jsstring) :=
  match e with
  | Ev c r =>
      match c in Call T return Result T -> option (Result jsstring) with
      | CGitDiffNameStatus _ | CGitDiffStat _ => fun r => Some r
      | _ => fun _ => None
      end r
  end.

Definition diffOutputs (evs : list Event) : list (Result jsstring) :=
  omap diffOutput evs.

(** How [client.config.get] came back. *)
Definition configAnswer (e : Event) : option (Result JsValue) :=
  match e with
  | Ev c r =>
      match c in Call T return Result T -> option (Result JsValue) with
      | CConfigGet => fun r => Some r
      | _ => fun _ => None
      end r
  end.

(** The messages handed to [commitAll]. *)
Definition commitMessage (e : Event) : option jsstring :=
  match e with
  | Ev c _ => match c with CCommitAll _ message => Some message | _ => None end
  end.

Definition commitMessages (evs : list Event) : list jsstring := omap commitMessage evs.

(** The branches handed to [fetchAndFastForward] and to [pushBranch]. *)
Definition syncedBranch (e : Event) : option jsstring :=
  match e with
  | Ev c _ =>
      match c with
      | CFetchAndFastForward _ branch | CPushBranch _ branch => Some branch
      | _ => None
      end
  end.

(** How [getRepoStatus] came back. *)
Definition statusAnswer (e : Event) : option (Result RepoStatus) :=
  match e with
  | Ev c r =>
      match c in Call T return Result T -> option (Result RepoStatus) with
      | CGetRepoStatus _ => fun r => Some r
      | _ => fun _ => None
      end r
  end.

(** The branch a flow works on, given how its [getRepoStatus] calls came
    back: the one observed by the first call, or none when it threw. *)
Definition observedBranch (evs : list Event) : option jsstring :=
  match head (omap statusAnswer evs) with
  | Some (Ok status) => Some (status_branch status)
  | _ => None
  end.

(** What [isRepoCloned] answered. *)
Definition clonedAnswer (e : Event) : option (Result bool) :=
  match e with
  | Ev c r =>
      match c in Call T return Result T -> option (Result bool) with
      | CIsRepoCloned _ => fun r => Some r
      | _ => fun _ => None
      end r
  end.

Definition isStatusCall (e : Event) : bool :=
  match e with Ev c _ => match c with CGetRepoStatus _ => true | _ => false end end.

Definition isClone (e : Event) : bool :=
  match e with Ev c _ => match c with CEnsureRepoCloned _ _ => true | _ => false end end.

Definition isConfigLoad (e : Event) : bool :=
  match e with Ev c _ => match c with CLoadSyncConfig _ => true | _ => false end end.

(** The visibility flag of a [gh repo create] call, and how it came back. *)
Definition repoCreation (e : Event) : option (jsstring * Result unit) :=
  match e with
  | Ev c r =>
      match c in Call T return Result T -> option (jsstring * Result unit) with
      | CGhRepoCreate _ _ visibility => fun r => Some (visibility, r)
      | _ => fun _ => None
      end r
  end.

(** The configurations handed to [writeSyncConfig]. *)
Definition writtenConfig (e : Event) : option SyncConfig :=
  match e with
  | Ev c _ => match c with CWriteSyncConfig _ config => Some config | _ => None end
  end.

(** The toasts sent: message and variant. *)
Definition toastSent (e : Event) : option (jsstring * ToastVariant) :=
  match e with
  | Ev c _ => match c with CShowToast message variant => Some (message, variant) | _ => None end
  end.

(** A call that came back with an error, other than a call the flows
    catch themselves ([getRepoStatus], the generator's own calls). *)
Definition isLoadOrToast (e : Event) : bool := isConfigLoad e || isToast e.

(** Neither white space nor a quote character at either end, no line
    feed, between 1 and 72 code units: what [sanitizeMessage] leaves
    alone. *)
Definition cleanMessage (m : jsstring) : Prop :=
  ~ In LF m
  /\ (1 <= length m <= 72)%nat
  /\ (forall c, head m = Some c \/ last m = Some c ->
                isWhiteSpace c = false /\ isQuote c = false).

Definition missingConfigError : Exn :=
  mkExn SyncConfigMissingError
        (lit "Missing opencode-sync config. Run /opencode-sync-init to set it up.").

Definition noRepoInfoError : Exn :=
  mkExn SyncCommandError
        (lit "Provide repo info (owner/name or URL) to initialize sync.").

(** The [status] report on a machine whose clone is missing. *)
Definition notClonedLine : jsstring := lit "Working tree: not cloned".

(** A call whose failure a flow survives: [getRepoStatus], caught by
    [resolveBranch] and by [status], and the generator's own calls. *)
Definition survivable (e : Event) : bool := isStatusCall e || generatorEvent e.

(** No call follows a call that threw, unless the throw is survivable. *)
Fixpoint stopsAtFailure (evs : list Event) : bool :=
  match evs with
  | [] => true
  | e :: rest =>
      if isOk e || survivable e then stopsAtFailure rest
      else match rest with [] => true | _ :: _ => false end
  end.

(** The error a call came back with. *)
Definition thrownBy (e : Event) : option Exn :=
  match e with
  | Ev _ (Err x) => Some x
  | Ev _ (Ok _) => None
  end.

(** The error of the last call of a run. *)
Definition lastThrown (evs : list Event) : option Exn := last evs ≫= thrownBy.

Definition dirtyError (repoRoot : jsstring) (action : String.string) : Exn :=
  mkExn SyncCommandError
        (lit "Local sync repo has uncommitted changes. Resolve in " ++ repoRoot
         ++ lit " before " ++ lit action ++ lit ".").

(** A call made on behalf of the commit message: one of the two
    [git diff] commands or a call to the client. *)
Definition messageCall (e : Event) : bool :=
  match e with
  | Ev c _ =>
      match c with
      | CGitDiffNameStatus _ | CGitDiffStat _ | CConfigGet
      | CSessionCreate _ | CSessionPrompt _ _ _ | CSessionDelete _ => true
      | _ => false
      end
  end.

(** The error of a call whose failure is not survivable. *)
Definition thrownHard (e : Event) : option Exn :=
  if survivable e then None else thrownBy e.

(** The first failure of a run that nothing inside the flow catches. *)
Definition firstFailure (evs : list Event) : option Exn := head (omap thrownHard evs).

(** The last call of a run, when it is a toast. *)
Definition lastToast (evs : list Event) : option (jsstring * ToastVariant) :=
  last evs ≫= toastSent.

Definition isPrivacyCheck (e : Event) : bool :=
  match e with Ev c _ => match c with CEnsureRepoPrivate _ => true | _ => false end end.

(** The calls [enableSecrets] is made of. *)
Definition isSecretsStep (e : Event) : bool :=
  isConfigLoad e || isPrivacyCheck e || isConfigWrite e.

(** The calls [init] is made of. *)
Definition isInitStep (e : Event) : bool :=
  match e with
  | Ev c _ =>
      match c with
      | CGhRepoCreate _ _ _ | CWriteSyncConfig _ _ | CEnsureRepoCloned _ _
      | CEnsureRepoPrivate _ => true
      | _ => false
      end
  end.

(** The calls [status] is made of: none of them changes anything. *)
Definition isStatusRead (e : Event) : bool :=
  match e with
  | Ev c _ =>
      match c with
      | CLoadSyncConfig _ | CLoadState _ | CIsRepoCloned _ | CGetRepoStatus _ => true
      | _ => false
      end
  end.

Definition ownerNameError : Exn :=
  mkExn SyncCommandError (lit "Repo creation requires owner/name.").

Definition createFailedError (cause : Exn) : Exn :=
  mkExn SyncCommandError (lit "Failed to create repo: " ++ message cause).

(** The configuration [enableSecrets] persists, given the stored one. *)
Definition withSecrets (config : SyncConfig) (extraPaths : option (list jsstring))
  : SyncConfig :=
  mkSyncConfig (repo config) true
               (default (extraSecretPaths config) extraPaths)
               (localRepoPath config).

Section Reports.
Context {deps : SyncDeps}.

(** The six lines of the [status] report. *)
Definition statusReport (config : SyncConfig) (branch : jsstring) (state : SyncState)
    (label : jsstring) : jsstring :=
  join [LF]
    [ lit "Repo: " ++ resolveRepoIdentifier config;
      lit "Branch: " ++ branch;
      lit "Secrets: " ++ (if includeSecrets config then lit "enabled" else lit "disabled");
      lit "Last pull: " ++ default (lit "never") (lastPull state);
      lit "Last push: " ++ default (lit "never") (lastPush state);
      lit "Working tree: " ++ label ].

(** The label of the working tree, from what [getRepoStatus] listed. *)
Definition pendingLabel (changes : list jsstring) : jsstring :=
  match changes with
  | [] => lit "clean"
  | first :: _ =>
      if bool_decide (first = lit "Repo status unavailable") then lit "unknown"
      else String_of_Z (Z.of_nat (length changes)) ++ lit " pending"
  end.

(** The four lines [init] answers with. *)
Definition initReport (locations : SyncLocations) (config : SyncConfig) : jsstring :=
  join [LF]
    [ lit "opencode-sync configured.";
      lit "Repo: " ++ resolveRepoIdentifier config;
      lit "Branch: " ++ resolveRepoBranch config None;
      lit "Local repo: " ++ resolveRepoRoot config locations ].

End Reports.

(** The error of a call that is the configuration load or a toast. *)
Definition thrownByLoadOrToast (e : Event) : option Exn :=
  if isLoadOrToast e then thrownBy e else None.

Definition configureToast : jsstring :=
  lit "opencode-sync: " ++ lit "Configure opencode-sync with /opencode-sync-init.".

(** The toast of the startup flow that reports an error. *)
Definition errorToast (cause : Exn) : jsstring * ToastVariant :=
  (lit "opencode-sync: " ++ message cause, error).

(** A property of the run of [m] from the world [w] with the
    collaborators [o]: of what it returned or threw, of the calls it made,
    in order, and of the world it left. *)
Definition runs {A} (m : M A) (o : Oracle) (w : World)
    (P : Result A -> list Event -> World -> Prop) : Prop :=
  exists r evs w', m o w = (r, w') /\ w_trace w' = w_trace w ++ evs /\ P r evs w'.

(** The run made no call after a call that threw (a survivable throw
    apart); it returned normally only if every call did; and an error it
    raised is the error of its last call or one of the flow's own. *)
Definition stopsAtFirstFailure {A} (m : M A) (o : Oracle) (w : World) : Prop :=
  runs m o w (fun r evs _ =>
    stopsAtFailure evs = true
    /\ match r with
       | Ok _ => forallb (fun e => isOk e || survivable e) evs = true
       | Err e =>
           lastThrown evs = Some e
           \/ kind e = SyncConfigMissingError
           \/ kind e = SyncCommandError
           \/ illTypedConfig o
       end).

(** How [session.create] came back. *)
Definition createAnswer (e : Event) : option (Result JsValue) :=
  match e with
  | Ev c r =>
      match c in Call T return Result T -> option (Result JsValue) with
      | CSessionCreate _ => fun r => Some r
      | _ => fun _ => None
      end r
  end.

(** A call that needs a session id: [session.prompt] or [session.delete]. *)
Definition usesSession (e : Event) : bool :=
  match e with
  | Ev c _ =>
      match c with
      | CSessionPrompt _ _ _ | CSessionDelete _ => true
      | _ => false
      end
  end.

(* ===================================================================== *)
(** * Running the embedding symbolically *)
(* ===================================================================== *)

Ltac align_oracle o2 Hans :=
  repeat match goal with
         | |- context [answer o2 ?A ?h ?c] => rewrite <- (Hans A h c eq_refl)
         end.

Ltac unfold_m :=
  unfold bind, ret, throw, call, now, gets, modify, tryCatch, tryFinally,
    attempt, liftR, record in *.

Ltac proj := cbn [w_trace w_env w_configFiles w_stateFiles fst snd] in *.

Ltac negb_hyps :=
  repeat match goal with
         | H : negb _ = false |- _ => apply negb_false_iff in H
         | H : negb _ = true |- _ => apply negb_true_iff in H
         end.

Ltac norm := repeat (progress (unfold_m; cbv beta iota zeta; proj)).

Ltac destruct_innermost x :=
  lazymatch x with
  | context [match ?y with _ => _ end] => destruct_innermost y
  | _ => destruct x eqn:?
  end.

Ltac step :=
  norm;
  lazymatch goal with
  | |- context [match ?x with _ => _ end] => destruct_innermost x
  end; norm.


(* ===================================================================== *)
(** * Strings and dates *)
(* ===================================================================== *)

Section Strings.

Lemma dropWhile_split p s : exists pre, s = pre ++ dropWhile p s.
Proof.
  induction s as [|c s IH]; cbn.
  - by exists [].
  - destruct (p c).
    + destruct IH as [pre E]. exists (c :: pre). cbn. by rewrite <- E.
    + by exists [].
Qed.


Lemma dropWhile_In p s c : In c (dropWhile p s) -> In c s.
Proof.
  destruct (dropWhile_split p s) as [pre E].
  intros Hc. rewrite E. apply in_or_app. by right.
Qed.

Lemma dropWhile_head p s c : head (dropWhile p s) = Some c -> p c = false.
Proof.
  induction s as [|a s IH]; cbn; [done|].
  destruct (p a) eqn:E; [done|]. cbn. intros [= <-]. done.
Qed.

Lemma dropWhileEnd_split p s : exists suf, s = dropWhileEnd p s ++ suf.
Proof.
  unfold dropWhileEnd.
  destruct (dropWhile_split p (rev s)) as [pre E].
  exists (rev pre).
  rewrite <- rev_app_distr, <- E. by rewrite rev_involutive.
Qed.


Lemma dropWhileEnd_In p s c : In c (dropWhileEnd p s) -> In c s.
Proof.
  destruct (dropWhileEnd_split p s) as [suf E].
  intros Hc. rewrite E. apply in_or_app. by left.
Qed.

Lemma dropWhileEnd_last p s c : last (dropWhileEnd p s) = Some c -> p c = false.
Proof.
  unfold dropWhileEnd. intros Hl.
  apply (dropWhile_head p (rev s)).
  destruct (dropWhile p (rev s)) as [|a l]; [done|].
  cbn in *. rewrite last_snoc in Hl. done.
Qed.

Lemma dropWhileEnd_head p s c :
  head (dropWhileEnd p s) = Some c -> head s = Some c.
Proof.
  destruct (dropWhileEnd_split p s) as [suf E]. intros Hh.
  rewrite E. destruct (dropWhileEnd p s); [done|]. done.
Qed.


Lemma trim_In s c : In c (trim s) -> In c s.
Proof. unfold trim. intros Hc. by apply dropWhileEnd_In, dropWhile_In in Hc. Qed.

Lemma split_head_no_sep sep s seg :
  head (split sep s) = Some seg -> ~ In sep seg.
Proof.
  revert seg. induction s as [|c s IH]; cbn; intros seg.
  - intros [= <-]. by intros [].
  - destruct (N.eqb_spec c sep) as [->|Hne]; cbn.
    + intros [= <-]. by intros [].
    + destruct (split sep s) as [|seg0 rest] eqn:E; cbn.
      * intros [= <-]. intros [Hc|[]]. done.
      * intros [= <-]. intros [Hc|Hc]; [done|]. by apply (IH seg0).
Qed.

Lemma take_In (n : nat) (s : jsstring) c : In c (take n s) -> In c s.
Proof.
  intros Hc. rewrite <- (take_drop n s). apply in_or_app. by left.
Qed.



Lemma sanitizeMessage_single_line message : ~ In LF (sanitizeMessage message).
Proof.
  assert (Hfirst : ~ In LF (trim (stripQuotes (trim (default [] (head (split LF message))))))).
  { intros Hc. apply trim_In in Hc. unfold stripQuotes in Hc.
    apply dropWhileEnd_In, dropWhile_In, trim_In in Hc.
    destruct (head (split LF message)) as [seg|] eqn:E; cbn in Hc; [|done].
    by apply (split_head_no_sep LF message seg). }
  unfold sanitizeMessage.
  destruct (negb _); [by intros []|].
  destruct (_ <=? _)%nat; [done|].
  intros Hc. apply trim_In in Hc. unfold slice0 in Hc. by apply take_In in Hc.
Qed.

End Strings.

Section Dates.




End Dates.

(* ===================================================================== *)
(** * The commit-message generator *)
(* ===================================================================== *)

Section Generator.

Lemma gcm_classify repoDir fd o w :
  exists r evs,
    generateCommitMessage repoDir fd o w = (r, extend w evs)
    /\ Forall (fun e => generatorEvent e = true) evs
    /\ match r with
       | Ok m => m = fallbackMessage (dateOf fd o w)
                 \/ successPath repoDir (clockEvents fd o w) evs m
       | Err _ => illTypedConfig o
       end.
Proof.
  destruct w as [env cf sf tr].
  unfold generateCommitMessage, getDiffSummary, resolveSmallModel, releaseSession, extend.
  destruct fd; norm.
  all: repeat step.
  all: rewrite <- ?app_assoc; cbn [app].
  all: do 2 eexists; split; [reflexivity | split; [repeat constructor|] ].
  all: negb_hyps.
  all: try congruence.
  all: try match goal with H : nonEmpty [] = true |- _ => discriminate H end.
  all: try (left; reflexivity).
  all: try match goal with
           | H : truthy ?v = true, E : _ = ?v |- _ => cbn in H; discriminate H
           end.
  all: try (right; unfold successPath, diffSummaryOf; cbn [clockEvents app];
            do 8 eexists; split; [reflexivity|]; repeat split; eassumption).
  all: try (eexists _, _; split; [eassumption|];
            match goal with E : nullish_or _ _ = _ |- _ => rewrite E end; reflexivity).
Qed.


Lemma gcm_release repoDir fd o w :
  exists r evs,
    generateCommitMessage repoDir fd o w = (r, extend w evs)
    /\ match obtainedSessionId evs with
       | Some id =>
           exists before outcome,
             evs = before ++ [Ev (CSessionDelete id) outcome]
             /\ none isSessionDelete before = true
       | None => none isSessionDelete evs = true
       end.
Proof.
  destruct w as [env cf sf tr].
  unfold generateCommitMessage, getDiffSummary, resolveSmallModel, releaseSession, extend.
  destruct fd; norm.
  all: repeat step.
  all: rewrite <- ?app_assoc; cbn [app].
  all: do 2 eexists; split; [reflexivity |].
  all: negb_hyps.
  all: try congruence.
  all: unfold obtainedSessionId; cbn [omap list_omap createdSessionId head];
       repeat match goal with H : truthy (sessionIdOf _) = _ |- _ => rewrite H end;
       cbn [omap list_omap createdSessionId head].
  all: try reflexivity.
  all: first [ eexists [_;_;_;_], _; split; reflexivity
             | eexists [_;_;_;_;_], _; split; reflexivity
             | eexists [_;_;_;_;_;_], _; split; reflexivity ].
Qed.

Lemma gcm_delete_outcome_irrelevant repoDir fd o o2 w :
  agreeExceptDelete o o2 ->
  fst (generateCommitMessage repoDir fd o2 w)
  = fst (generateCommitMessage repoDir fd o w).
Proof.
  intros [Hclk Hans].
  destruct w as [env cf sf tr].
  unfold generateCommitMessage, getDiffSummary, resolveSmallModel, releaseSession.
  destruct fd; norm.
  all: rewrite <- ?Hclk.
  all: repeat (align_oracle o2 Hans; step).
  all: try reflexivity.
  all: try congruence.
Qed.


(** C8: whenever a session id was obtained, [session.delete] is called
    exactly once, as the last call of the run, also when the prompt or the
    extraction failed; no delete is made otherwise; and how the delete call
    comes back does not change what [generateCommitMessage] returns. *)
Theorem session_released_exactly_once repoDir fd o w :
  (exists r evs,
     generateCommitMessage repoDir fd o w = (r, extend w evs)
     /\ match obtainedSessionId evs with
        | Some id =>
            exists before outcome,
              evs = before ++ [Ev (CSessionDelete id) outcome]
              /\ none isSessionDelete before = true
        | None => none isSessionDelete evs = true
        end)
  /\ (forall o2,
        agreeExceptDelete o o2 ->
        fst (generateCommitMessage repoDir fd o2 w)
        = fst (generateCommitMessage repoDir fd o w)).
Proof.
  split.
  - apply gcm_release.
  - intros o2. apply gcm_delete_outcome_irrelevant.
Qed.


End Generator.

(* ===================================================================== *)
(** * The orchestrator *)
(* ===================================================================== *)

Ltac gcm_step :=
  match goal with
  | |- context [generateCommitMessage ?d ?fd ?o ?w] =>
      let r := fresh "r" in
      let gevs := fresh "gevs" in
      let Hgen := fresh "Hgen" in
      let Hcls := fresh "Hcls" in
      destruct (gcm_classify d fd o w) as (r & gevs & -> & Hgen & Hcls);
      unfold extend
  end.

Ltac unfold_flow :=
  unfold startupSync, runStartup, pull, push, enableSecrets, init, status,
    getConfigOrThrow, ensureSecretsPolicy, resolveBranch, createRepo,
    loadSyncConfig, writeSyncConfig, loadState, writeState, loadOverrides,
    nowISO, showToast, setConfigFiles, setStateFiles.

Ltac run := unfold_flow; repeat (norm; first [gcm_step | step]).

Ltac leaf :=
  proj; rewrite <- ?app_assoc in *;
  eexists _, _, _; split; [reflexivity|];
  split; [first [reflexivity | symmetry; apply app_nil_r]|].

(** The generator's calls are none of the orchestrator's: its block of
    events is invisible to the trace readers. *)
Lemma generator_forallb (f : Event -> bool) evs :
  (forall e, generatorEvent e = true -> f e = true) ->
  Forall (fun e => generatorEvent e = true) evs -> forallb f evs = true.
Proof.
  intros Hf. induction 1 as [|e evs He _ IH]; [done|].
  cbn [forallb]. by rewrite IH, (Hf e He).
Qed.

Lemma generator_existsb (f : Event -> bool) evs :
  (forall e, generatorEvent e = true -> f e = false) ->
  Forall (fun e => generatorEvent e = true) evs -> existsb f evs = false.
Proof.
  intros Hf. induction 1 as [|e evs He _ IH]; [done|].
  cbn [existsb]. by rewrite IH, (Hf e He).
Qed.

Lemma generator_omap {B} (f : Event -> option B) evs :
  (forall e, generatorEvent e = true -> f e = None) ->
  Forall (fun e => generatorEvent e = true) evs -> omap f evs = [].
Proof.
  intros Hf. induction 1 as [|e evs He _ IH]; [done|].
  cbn [omap list_omap]. by rewrite IH, (Hf e He).
Qed.

Lemma generator_beforeFirst (p : Event -> bool) evs rest :
  (forall e, generatorEvent e = true -> p e = false) ->
  Forall (fun e => generatorEvent e = true) evs ->
  beforeFirst p (evs ++ rest) = evs ++ beforeFirst p rest.
Proof.
  intros Hp. induction 1 as [|e evs He _ IH]; [done|].
  cbn [app beforeFirst]. by rewrite IH, (Hp e He).
Qed.

Ltac by_cases_on_call :=
  let e := fresh "e" in
  intros e; destruct e as [? [] ?]; cbn; congruence.

Ltac eval_readers :=
  cbn [app existsb forallb omap list_omap head last negb andb orb isOk
       dirtyAnswer fetchAnswer privacyAnswer statePatch reconciledPlan loadedFrom
       isStateWrite isConfigWrite isRepoToLocal isLocalToRepo
       isFetch isCommit isPush isToast mutating commitsOrPushes failedStep
       length beforeFirst].

Ltac hide_generator :=
  repeat match goal with
         | Hg : Forall _ ?g |- context [forallb ?f ?g] =>
             rewrite (generator_forallb f g) by (assumption || by_cases_on_call)
         | Hg : Forall _ ?g |- context [existsb ?f ?g] =>
             rewrite (generator_existsb f g) by (assumption || by_cases_on_call)
         | Hg : Forall _ ?g |- context [omap ?f ?g] =>
             rewrite (generator_omap f g) by (assumption || by_cases_on_call)
         | Hg : Forall _ ?g |- context [beforeFirst ?p (?g ++ ?rest)] =>
             rewrite (generator_beforeFirst p g rest)
               by (assumption || by_cases_on_call)
         end.

(** Evaluate the trace readers on a trace made of explicit events and of
    the generator's block. *)
Ltac read_trace :=
  proj;
  unfold dirtyChecks, fetches, privacyChecks, statePatches, none, completed;
  repeat (progress (eval_readers;
                    rewrite ?forallb_app, ?existsb_app, ?omap_app;
                    hide_generator)).

Ltac settle :=
  (* calls in tail position have not been looked at yet *)
  repeat match goal with
         | |- context [answer ?o ?A ?h ?c] => destruct (answer o A h c) eqn:?
         end;
  negb_hyps;
  repeat match goal with
         | a : FetchResult |- _ => destruct a; cbn [updated] in *
         end;
  subst; destruct_all unit.

Section Orchestrator.
Context {deps : SyncDeps}.

Lemma pull_dirty locations o w :
  exists r evs w',
    pull locations o w = (r, w')
    /\ w_trace w' = w_trace w ++ evs
    /\ forall root,
         head (dirtyChecks evs) = Some (root, Ok true) ->
         r = Err (mkExn SyncCommandError (dirtyMessage root "pulling"))
         /\ none mutating evs = true
         /\ w_stateFiles w' = w_stateFiles w
         /\ w_configFiles w' = w_configFiles w.
Proof.
  destruct w as [env cf sf tr]. run.
  all: leaf.
  all: intros root Hd; try discriminate Hd.
  all: injection Hd as <-; repeat split.
Qed.

Lemma push_dirty locations o w :
  exists r evs w',
    push locations o w = (r, w')
    /\ w_trace w' = w_trace w ++ evs
    /\ forall root,
         head (dirtyChecks evs) = Some (root, Ok true) ->
         r = Err (mkExn SyncCommandError (dirtyMessage root "pushing"))
         /\ none mutating evs = true
         /\ w_stateFiles w' = w_stateFiles w
         /\ w_configFiles w' = w_configFiles w.
Proof.
  destruct w as [env cf sf tr]. run.
  all: leaf.
  all: intros root Hd; try discriminate Hd.
  all: injection Hd as <-; repeat split.
Qed.

Lemma startup_dirty locations o w :
  exists r evs w',
    startupSync locations o w = (r, w')
    /\ w_trace w' = w_trace w ++ evs
    /\ forall root,
         head (dirtyChecks evs) = Some (root, Ok true) ->
         none mutating evs = true
         /\ w_stateFiles w' = w_stateFiles w
         /\ w_configFiles w' = w_configFiles w
         /\ exists before delivered after,
              evs = before ++ Ev (CShowToast (startupDirtyToast root) warning) delivered :: after
              /\ none isToast before = true
              /\ (delivered = Ok tt -> after = [] /\ r = Ok tt).
Proof.
  destruct w as [env cf sf tr]. run.
  all: leaf.
  all: intros root Hd; try discriminate Hd.
  all: injection Hd as <-; repeat split.
  all: first [ eexists [_;_;_;_], _, _; split; [reflexivity|]
             | eexists [_;_;_;_;_], _, _; split; [reflexivity|] ].
  all: split; [reflexivity|]; intros [=]; try done.
  all: by destruct_all unit.
Qed.

(** C3: when the first [hasLocalChanges] of a run answers true, [pull]
    and [push] throw a [SyncCommandError] whose message names the repo
    path and have reconciled, fetched, committed, pushed and written
    nothing; the startup flow makes no such call either, sends the warning
    toast and, the toast delivered, returns normally. *)
Theorem dirty_repo_blocks_pull_push_not_startup locations o w :
  (exists r evs w',
     pull locations o w = (r, w')
     /\ w_trace w' = w_trace w ++ evs
     /\ forall root,
          head (dirtyChecks evs) = Some (root, Ok true) ->
          r = Err (mkExn SyncCommandError (dirtyMessage root "pulling"))
          /\ none mutating evs = true
          /\ w_stateFiles w' = w_stateFiles w
          /\ w_configFiles w' = w_configFiles w)
  /\ (exists r evs w',
        push locations o w = (r, w')
        /\ w_trace w' = w_trace w ++ evs
        /\ forall root,
             head (dirtyChecks evs) = Some (root, Ok true) ->
             r = Err (mkExn SyncCommandError (dirtyMessage root "pushing"))
             /\ none mutating evs = true
             /\ w_stateFiles w' = w_stateFiles w
             /\ w_configFiles w' = w_configFiles w)
  /\ (exists r evs w',
        startupSync locations o w = (r, w')
        /\ w_trace w' = w_trace w ++ evs
        /\ forall root,
             head (dirtyChecks evs) = Some (root, Ok true) ->
             none mutating evs = true
             /\ w_stateFiles w' = w_stateFiles w
             /\ w_configFiles w' = w_configFiles w
             /\ exists before delivered after,
                  evs = before
                        ++ Ev (CShowToast (startupDirtyToast root) warning) delivered
                        :: after
                  /\ none isToast before = true
                  /\ (delivered = Ok tt -> after = [] /\ r = Ok tt)).
Proof.
  split; [apply pull_dirty | split; [apply push_dirty | apply startup_dirty]].
Qed.

(** C4: the startup run on a clean working tree.  If the fetch reports an
    update, the run never reconciles local-to-repo, commits or pushes; it
    returns normally when no call throws, and when it returns normally it
    has reconciled repo-to-local, stored [lastPull] and [lastRemoteUpdate]
    and sent the restart toast last.  If the fetch reports none, the run
    never reconciles repo-to-local; it commits, pushes or writes state only
    when the second [hasLocalChanges], after the local-to-repo
    reconciliation, answered true, and, when it returns normally, then it
    has committed, pushed and stored [lastPush]. *)
Theorem startup_pulls_or_else_pushes locations config o w :
  exists r evs w',
    runStartup locations config o w = (r, w')
    /\ w_trace w' = w_trace w ++ evs
    /\ w_configFiles w' = w_configFiles w
    /\ forall root,
         head (dirtyChecks evs) = Some (root, Ok false) ->
         (fetches evs = [Ok (mkFetchResult true)] ->
            none isLocalToRepo evs = true
            /\ none isCommit evs = true
            /\ none isPush evs = true
            /\ (r = Ok tt ->
                  completed isRepoToLocal evs = true
                  /\ last evs = Some (Ev (CShowToast restartToast info) (Ok tt))
                  /\ exists pulledAt remoteAt,
                       w_stateFiles w'
                       = stateFilesAfter locations
                           (mkSyncState (Some pulledAt) None (Some remoteAt)) w)
            /\ (forallb isOk evs = true -> r = Ok tt))
         /\ (fetches evs = [Ok (mkFetchResult false)] ->
               none isRepoToLocal evs = true
               /\ (existsb commitsOrPushes evs = true ->
                     completed isLocalToRepo evs = true
                     /\ dirtyChecks evs = [(root, Ok false); (root, Ok true)])
               /\ (r = Ok tt ->
                     completed isLocalToRepo evs = true
                     /\ ((dirtyChecks evs = [(root, Ok false); (root, Ok false)]
                          /\ none commitsOrPushes evs = true
                          /\ w_stateFiles w' = w_stateFiles w)
                         \/ (dirtyChecks evs = [(root, Ok false); (root, Ok true)]
                             /\ completed isCommit evs = true
                             /\ completed isPush evs = true
                             /\ exists pushedAt,
                                  w_stateFiles w'
                                  = stateFilesAfter locations
                                      (mkSyncState None (Some pushedAt) None) w)))).
Proof.
  destruct w as [env cf sf tr]. run.
  all: settle; leaf.
  all: split; [reflexivity|].
  all: intros root Hd; try discriminate Hd.
  all: injection Hd as <-.
  all: split; intros Hf; try discriminate Hf.
  (* the fetch reported an update *)
  all: try (split; [reflexivity | split; [reflexivity | split; [reflexivity | split] ] ];
            [ intros Hr;
              first [ discriminate Hr
                    | split; [reflexivity | split; [reflexivity | eexists _, _; reflexivity] ] ]
            | intros Hall; first [ reflexivity | cbn in Hall; discriminate Hall ] ]).
  (* the fetch reported none *)
  all: read_trace.
  all: split; [reflexivity | split].
  all: try (intros Hr; discriminate Hr).
  all: try (intros _; split; reflexivity).
  all: intros Hr; try rewrite Hr; (split; [reflexivity|]).
  all: first [ left; split; [reflexivity | split; reflexivity]
             | right; split; [reflexivity | split; [reflexivity | split; [reflexivity|] ] ];
               eexists; reflexivity ].
Qed.

End Orchestrator.

Section PersistedState.
Context {deps : SyncDeps}.

Lemma pull_state_write locations o w :
  exists r evs w',
    pull locations o w = (r, w')
    /\ w_trace w' = w_trace w ++ evs
    /\ (statePatches evs = []
        \/ exists pulledAt remoteAt,
             statePatches evs = [mkSyncState (Some pulledAt) None (Some remoteAt)]
             /\ fetches (beforeFirst isStateWrite evs) = [Ok (mkFetchResult true)]
             /\ completed isRepoToLocal (beforeFirst isStateWrite evs) = true)
    /\ (completed isStateWrite evs = false -> w_stateFiles w' = w_stateFiles w)
    /\ (existsb failedStep evs = true ->
          statePatches evs = []
          /\ w_stateFiles w' = w_stateFiles w
          /\ exists e, r = Err e)
    /\ (forall e, r = Err e ->
          w_stateFiles w' = w_stateFiles w
          \/ last evs = Some (Ev (CShowToast restartToast info) (Err e))).
Proof.
  destruct w as [env cf sf tr]. run.
  all: settle; leaf.
  all: read_trace.
  all: split; [first [left; reflexivity | right; eexists _, _; repeat split; reflexivity] |].
  all: split; [first [intros _; reflexivity | intros Hx; discriminate Hx] |].
  all: split; [first [intros Hx; discriminate Hx
                     | intros _; split; [reflexivity | split; [reflexivity | eexists; reflexivity] ] ] |].
  all: intros e' Hr; first [discriminate Hr | left; reflexivity | right; injection Hr as ->; reflexivity].
Qed.

Lemma push_state_write locations o w :
  exists r evs w',
    push locations o w = (r, w')
    /\ w_trace w' = w_trace w ++ evs
    /\ (statePatches evs = []
        \/ exists pushedAt,
             statePatches evs = [mkSyncState None (Some pushedAt) None]
             /\ completed isCommit (beforeFirst isStateWrite evs) = true
             /\ completed isPush (beforeFirst isStateWrite evs) = true)
    /\ (completed isStateWrite evs = false -> w_stateFiles w' = w_stateFiles w)
    /\ (existsb failedStep evs = true ->
          statePatches evs = []
          /\ w_stateFiles w' = w_stateFiles w
          /\ exists e, r = Err e)
    /\ (forall e, r = Err e -> w_stateFiles w' = w_stateFiles w).
Proof.
  destruct w as [env cf sf tr]. run.
  all: settle; leaf.
  all: read_trace.
  all: split; [first [left; reflexivity | right; eexists; repeat split; reflexivity] |].
  all: split; [first [intros _; reflexivity | intros Hx; discriminate Hx] |].
  all: split; [first [intros Hx; discriminate Hx
                     | intros _; split; [reflexivity | split; [reflexivity | eexists; reflexivity] ] ] |].
  all: intros e' Hr; first [discriminate Hr | reflexivity].
Qed.

Lemma startup_state_write locations config o w :
  exists r evs w',
    runStartup locations config o w = (r, w')
    /\ w_trace w' = w_trace w ++ evs
    /\ (statePatches evs = []
        \/ (exists pulledAt remoteAt,
              statePatches evs = [mkSyncState (Some pulledAt) None (Some remoteAt)]
              /\ fetches (beforeFirst isStateWrite evs) = [Ok (mkFetchResult true)]
              /\ completed isRepoToLocal (beforeFirst isStateWrite evs) = true)
        \/ (exists pushedAt,
              statePatches evs = [mkSyncState None (Some pushedAt) None]
              /\ completed isCommit (beforeFirst isStateWrite evs) = true
              /\ completed isPush (beforeFirst isStateWrite evs) = true))
    /\ (completed isStateWrite evs = false -> w_stateFiles w' = w_stateFiles w)
    /\ (existsb failedStep evs = true ->
          statePatches evs = []
          /\ w_stateFiles w' = w_stateFiles w
          /\ exists e, r = Err e).
Proof.
  destruct w as [env cf sf tr]. run.
  all: settle; leaf.
  all: read_trace.
  all: split;
    [ first [ left; reflexivity
            | right; left; eexists _, _; repeat split; reflexivity
            | right; right; eexists; repeat split; reflexivity ] |].
  all: split; [first [intros _; reflexivity | intros Hx; discriminate Hx] |].
  all: first [ intros Hx; discriminate Hx
             | intros _; split; [reflexivity | split; [reflexivity | eexists; reflexivity] ] ].
Qed.

(** C5: in [pull], in [push] and in the startup run the state is written
    at most once, and only after the steps it records have completed --
    the fetch reported an update and [syncRepoToLocal] returned,
    respectively [commitAll] and [pushBranch] returned; when one of these
    steps throws, the flow throws, no state write is attempted and the
    stored state is what it was.  A [push] that fails never changed the
    stored state; a [pull] that fails changed it only when the failure is
    that of the closing toast. *)
Theorem state_written_only_after_success locations o w :
  (exists r evs w',
     pull locations o w = (r, w')
     /\ w_trace w' = w_trace w ++ evs
     /\ (statePatches evs = []
         \/ exists pulledAt remoteAt,
              statePatches evs = [mkSyncState (Some pulledAt) None (Some remoteAt)]
              /\ fetches (beforeFirst isStateWrite evs) = [Ok (mkFetchResult true)]
              /\ completed isRepoToLocal (beforeFirst isStateWrite evs) = true)
     /\ (completed isStateWrite evs = false -> w_stateFiles w' = w_stateFiles w)
     /\ (existsb failedStep evs = true ->
           statePatches evs = []
           /\ w_stateFiles w' = w_stateFiles w
           /\ exists e, r = Err e)
     /\ (forall e, r = Err e ->
           w_stateFiles w' = w_stateFiles w
           \/ last evs = Some (Ev (CShowToast restartToast info) (Err e))))
  /\ (exists r evs w',
        push locations o w = (r, w')
        /\ w_trace w' = w_trace w ++ evs
        /\ (statePatches evs = []
            \/ exists pushedAt,
                 statePatches evs = [mkSyncState None (Some pushedAt) None]
                 /\ completed isCommit (beforeFirst isStateWrite evs) = true
                 /\ completed isPush (beforeFirst isStateWrite evs) = true)
        /\ (completed isStateWrite evs = false -> w_stateFiles w' = w_stateFiles w)
        /\ (existsb failedStep evs = true ->
              statePatches evs = []
              /\ w_stateFiles w' = w_stateFiles w
              /\ exists e, r = Err e)
        /\ (forall e, r = Err e -> w_stateFiles w' = w_stateFiles w))
  /\ (forall config,
       exists r evs w',
         runStartup locations config o w = (r, w')
         /\ w_trace w' = w_trace w ++ evs
         /\ (statePatches evs = []
             \/ (exists pulledAt remoteAt,
                   statePatches evs = [mkSyncState (Some pulledAt) None (Some remoteAt)]
                   /\ fetches (beforeFirst isStateWrite evs) = [Ok (mkFetchResult true)]
                   /\ completed isRepoToLocal (beforeFirst isStateWrite evs) = true)
             \/ (exists pushedAt,
                   statePatches evs = [mkSyncState None (Some pushedAt) None]
                   /\ completed isCommit (beforeFirst isStateWrite evs) = true
                   /\ completed isPush (beforeFirst isStateWrite evs) = true))
         /\ (completed isStateWrite evs = false -> w_stateFiles w' = w_stateFiles w)
         /\ (existsb failedStep evs = true ->
               statePatches evs = []
               /\ w_stateFiles w' = w_stateFiles w
               /\ exists e, r = Err e)).
Proof.
  split; [apply pull_state_write|].
  split; [apply push_state_write|].
  intros config. apply startup_state_write.
Qed.





End PersistedState.

Section SecretsPolicy.
Context {deps : SyncDeps}.

Lemma enableSecrets_policy locations paths o w :
  exists r evs w',
    enableSecrets locations paths o w = (r, w')
    /\ w_trace w' = w_trace w ++ evs
    /\ (privacyChecks evs = [Ok tt] \/ none mutating evs = true)
    /\ forall e,
         privacyChecks evs = [Err e] ->
         r = Err e
         /\ none mutating evs = true
         /\ w_configFiles w' = w_configFiles w
         /\ w_stateFiles w' = w_stateFiles w.
Proof.
  destruct w as [env cf sf tr]. run.
  all: settle; leaf.
  all: read_trace.
  all: split; [first [left; reflexivity | right; reflexivity] |].
  all: intros e' He; try discriminate He.
  all: injection He as <-; repeat split.
Qed.

Lemma pull_policy locations o w :
  exists r evs w',
    pull locations o w = (r, w')
    /\ w_trace w' = w_trace w ++ evs
    /\ (forall config,
          w_configFiles w !! syncConfigPath locations = Some config ->
          includeSecrets config = true ->
          privacyChecks evs = [Ok tt] \/ none mutating evs = true)
    /\ forall e,
         privacyChecks evs = [Err e] ->
         r = Err e
         /\ none mutating evs = true
         /\ w_configFiles w' = w_configFiles w
         /\ w_stateFiles w' = w_stateFiles w.
Proof.
  destruct w as [env cf sf tr]. run.
  all: settle; leaf.
  all: read_trace.
  all: split;
    [ intros config Hc Hs; proj;
      first [ left; reflexivity | right; reflexivity | congruence ] |].
  all: intros e' He; try discriminate He.
  all: injection He as <-; repeat split.
Qed.

Lemma push_policy locations o w :
  exists r evs w',
    push locations o w = (r, w')
    /\ w_trace w' = w_trace w ++ evs
    /\ (forall config,
          w_configFiles w !! syncConfigPath locations = Some config ->
          includeSecrets config = true ->
          privacyChecks evs = [Ok tt] \/ none mutating evs = true)
    /\ forall e,
         privacyChecks evs = [Err e] ->
         r = Err e
         /\ none mutating evs = true
         /\ w_configFiles w' = w_configFiles w
         /\ w_stateFiles w' = w_stateFiles w.
Proof.
  destruct w as [env cf sf tr]. run.
  all: settle; leaf.
  all: read_trace.
  all: split;
    [ intros config Hc Hs; proj;
      first [ left; reflexivity | right; reflexivity | congruence ] |].
  all: intros e' He; try discriminate He.
  all: injection He as <-; repeat split.
Qed.

Lemma startup_policy locations o w :
  exists r evs w',
    startupSync locations o w = (r, w')
    /\ w_trace w' = w_trace w ++ evs
    /\ (forall config,
          w_configFiles w !! syncConfigPath locations = Some config ->
          includeSecrets config = true ->
          privacyChecks evs = [Ok tt] \/ none mutating evs = true)
    /\ forall e,
         privacyChecks evs = [Err e] ->
         none mutating evs = true
         /\ w_configFiles w' = w_configFiles w
         /\ w_stateFiles w' = w_stateFiles w
         /\ exists delivered,
              last evs = Some (Ev (CShowToast (lit "opencode-sync: " ++ formatError e)
                                              error) delivered)
              /\ r = delivered.
Proof.
  destruct w as [env cf sf tr]. run.
  all: settle; leaf.
  all: read_trace.
  all: split;
    [ intros config Hc Hs; proj;
      first [ left; reflexivity | right; reflexivity | congruence ] |].
  all: intros e' He; try discriminate He.
  all: injection He as <-; repeat split.
  all: eexists; split; reflexivity.
Qed.

Lemma init_policy locations options o w :
  exists r evs w',
    init locations options o w = (r, w')
    /\ w_trace w' = w_trace w ++ evs
    /\ forall e,
         privacyChecks evs = [Err e] ->
         r = Err e /\ w_stateFiles w' = w_stateFiles w.
Proof.
  destruct w as [env cf sf tr]. run.
  all: settle; leaf.
  all: read_trace.
  all: intros e' He; try discriminate He.
  all: injection He as <-; repeat split.
Qed.

(** C2 (amended): when [ensureRepoPrivate] throws, [enableSecrets],
    [pull] and [push] throw that same error, having written neither the
    configuration nor the state and having reconciled, fetched, committed
    and pushed nothing; the startup operation makes none of these calls
    either and reports the error in an error toast, returning what the
    toast returns; [init] throws that error too.  With secrets enabled in
    the stored configuration, [pull], [push] and the startup operation make
    no mutating call unless the privacy check passed, and neither does
    [enableSecrets]. *)
Theorem privacy_violation_blocks_the_flow locations o w :
  (forall paths,
     exists r evs w',
       enableSecrets locations paths o w = (r, w')
       /\ w_trace w' = w_trace w ++ evs
       /\ (privacyChecks evs = [Ok tt] \/ none mutating evs = true)
       /\ forall e,
            privacyChecks evs = [Err e] ->
            r = Err e
            /\ none mutating evs = true
            /\ w_configFiles w' = w_configFiles w
            /\ w_stateFiles w' = w_stateFiles w)
  /\ (exists r evs w',
        pull locations o w = (r, w')
        /\ w_trace w' = w_trace w ++ evs
        /\ (forall config,
              w_configFiles w !! syncConfigPath locations = Some config ->
              includeSecrets config = true ->
              privacyChecks evs = [Ok tt] \/ none mutating evs = true)
        /\ forall e,
             privacyChecks evs = [Err e] ->
             r = Err e
             /\ none mutating evs = true
             /\ w_configFiles w' = w_configFiles w
             /\ w_stateFiles w' = w_stateFiles w)
  /\ (exists r evs w',
        push locations o w = (r, w')
        /\ w_trace w' = w_trace w ++ evs
        /\ (forall config,
              w_configFiles w !! syncConfigPath locations = Some config ->
              includeSecrets config = true ->
              privacyChecks evs = [Ok tt] \/ none mutating evs = true)
        /\ forall e,
             privacyChecks evs = [Err e] ->
             r = Err e
             /\ none mutating evs = true
             /\ w_configFiles w' = w_configFiles w
             /\ w_stateFiles w' = w_stateFiles w)
  /\ (exists r evs w',
        startupSync locations o w = (r, w')
        /\ w_trace w' = w_trace w ++ evs
        /\ (forall config,
              w_configFiles w !! syncConfigPath locations = Some config ->
              includeSecrets config = true ->
              privacyChecks evs = [Ok tt] \/ none mutating evs = true)
        /\ forall e,
             privacyChecks evs = [Err e] ->
             none mutating evs = true
             /\ w_configFiles w' = w_configFiles w
             /\ w_stateFiles w' = w_stateFiles w
             /\ exists delivered,
                  last evs
                  = Some (Ev (CShowToast (lit "opencode-sync: " ++ formatError e) error)
                             delivered)
                  /\ r = delivered)
  /\ (forall options,
       exists r evs w',
         init locations options o w = (r, w')
         /\ w_trace w' = w_trace w ++ evs
         /\ forall e,
              privacyChecks evs = [Err e] ->
              r = Err e /\ w_stateFiles w' = w_stateFiles w).
Proof.
  split; [intros paths; apply enableSecrets_policy|].
  split; [apply pull_policy|].
  split; [apply push_policy|].
  split; [apply startup_policy|].
  intros options. apply init_policy.
Qed.

End SecretsPolicy.

Section Freshness.
Context {deps : SyncDeps}.

Ltac replanned :=
  let config := fresh "config" in
  let Hc := fresh "Hc" in
  intros config Hc; proj;
  first [ apply List.Forall_nil
        | match goal with
          | Hs : ?m !! ?k = Some ?s |- _ =>
              assert (config = s) by congruence; subst; repeat constructor
          end ].

Lemma pull_reloads locations o w :
  exists r evs w',
    pull locations o w = (r, w')
    /\ w_trace w' = w_trace w ++ evs
    /\ head (omap loadedFrom evs) = Some locations
    /\ forall config,
         w_configFiles w !! syncConfigPath locations = Some config ->
         Forall (fun plan =>
                   plan = buildSyncPlan config locations
                            (resolveRepoRoot config locations) (platform (w_env w)))
                (omap reconciledPlan evs).
Proof.
  destruct w as [env cf sf tr]. run.
  all: settle; leaf.
  all: read_trace.
  all: split; [reflexivity|].
  all: replanned.
Qed.

Lemma push_reloads locations o w :
  exists r evs w',
    push locations o w = (r, w')
    /\ w_trace w' = w_trace w ++ evs
    /\ head (omap loadedFrom evs) = Some locations
    /\ forall config,
         w_configFiles w !! syncConfigPath locations = Some config ->
         Forall (fun plan =>
                   plan = buildSyncPlan config locations
                            (resolveRepoRoot config locations) (platform (w_env w)))
                (omap reconciledPlan evs).
Proof.
  destruct w as [env cf sf tr]. run.
  all: settle; leaf.
  all: read_trace.
  all: split; [reflexivity|].
  all: replanned.
Qed.

Lemma startup_reloads locations o w :
  exists r evs w',
    startupSync locations o w = (r, w')
    /\ w_trace w' = w_trace w ++ evs
    /\ head (omap loadedFrom evs) = Some locations
    /\ forall config,
         w_configFiles w !! syncConfigPath locations = Some config ->
         Forall (fun plan =>
                   plan = buildSyncPlan config locations
                            (resolveRepoRoot config locations) (platform (w_env w)))
                (omap reconciledPlan evs).
Proof.
  destruct w as [env cf sf tr]. run.
  all: settle; leaf.
  all: read_trace.
  all: split; [reflexivity|].
  all: replanned.
Qed.

Lemma status_reloads locations o w :
  exists r evs w',
    status locations o w = (r, w')
    /\ w_trace w' = w_trace w ++ evs
    /\ head (omap loadedFrom evs) = Some locations.
Proof.
  destruct w as [env cf sf tr]. run.
  all: settle; leaf.
  all: reflexivity.
Qed.

Lemma enableSecrets_reloads locations paths o w :
  exists r evs w',
    enableSecrets locations paths o w = (r, w')
    /\ w_trace w' = w_trace w ++ evs
    /\ head (omap loadedFrom evs) = Some locations.
Proof.
  destruct w as [env cf sf tr]. run.
  all: settle; leaf.
  all: reflexivity.
Qed.

(** C9 (amended): [createSyncService] resolves the locations once, from
    the environment it is created in, and each of the six operations is
    the operation at those locations, whatever the environment is when it
    runs.  Every run of [pull], [push], the startup operation, [status] and
    [enableSecrets] starts by reading the configuration file at those
    locations again, and every plan [pull], [push] and the startup
    operation reconcile with is built, in that run, from the configuration
    read in that run. *)
Theorem locations_fixed_at_creation_plan_rebuilt o0 w0 :
  (exists svc,
     createSyncService o0 w0 = (Ok svc, w0)
     /\ svc_startupSync svc = startupSync (resolveSyncLocations (w_env w0))
     /\ svc_status svc = status (resolveSyncLocations (w_env w0))
     /\ svc_init svc = init (resolveSyncLocations (w_env w0))
     /\ svc_pull svc = pull (resolveSyncLocations (w_env w0))
     /\ svc_push svc = push (resolveSyncLocations (w_env w0))
     /\ svc_enableSecrets svc = enableSecrets (resolveSyncLocations (w_env w0)))
  /\ forall locations o w,
       (exists r evs w',
          pull locations o w = (r, w')
          /\ w_trace w' = w_trace w ++ evs
          /\ head (omap loadedFrom evs) = Some locations
          /\ forall config,
               w_configFiles w !! syncConfigPath locations = Some config ->
               Forall (fun plan =>
                         plan = buildSyncPlan config locations
                                  (resolveRepoRoot config locations)
                                  (platform (w_env w)))
                      (omap reconciledPlan evs))
       /\ (exists r evs w',
             push locations o w = (r, w')
             /\ w_trace w' = w_trace w ++ evs
             /\ head (omap loadedFrom evs) = Some locations
             /\ forall config,
                  w_configFiles w !! syncConfigPath locations = Some config ->
                  Forall (fun plan =>
                            plan = buildSyncPlan config locations
                                     (resolveRepoRoot config locations)
                                     (platform (w_env w)))
                         (omap reconciledPlan evs))
       /\ (exists r evs w',
             startupSync locations o w = (r, w')
             /\ w_trace w' = w_trace w ++ evs
             /\ head (omap loadedFrom evs) = Some locations
             /\ forall config,
                  w_configFiles w !! syncConfigPath locations = Some config ->
                  Forall (fun plan =>
                            plan = buildSyncPlan config locations
                                     (resolveRepoRoot config locations)
                                     (platform (w_env w)))
                         (omap reconciledPlan evs))
       /\ (exists r evs w',
             status locations o w = (r, w')
             /\ w_trace w' = w_trace w ++ evs
             /\ head (omap loadedFrom evs) = Some locations)
       /\ (forall paths,
           exists r evs w',
             enableSecrets locations paths o w = (r, w')
             /\ w_trace w' = w_trace w ++ evs
             /\ head (omap loadedFrom evs) = Some locations).
Proof.
  split.
  - eexists. split; [reflexivity|]. repeat split.
  - intros locations o w.
    split; [apply pull_reloads|].
    split; [apply push_reloads|].
    split; [apply startup_reloads|].
    split; [apply status_reloads|].
    intros paths. apply enableSecrets_reloads.
Qed.

End Freshness.

Section Planner.

(** C1: with [includeSecrets = false] the plan has no item with
    [isSecret = true] and an empty allowlist, whatever [extraSecretPaths]
    holds; a plan with a secret item or a non-empty allowlist comes from a
    configuration with [includeSecrets = true]. *)
Theorem plan_has_secrets_only_when_enabled config locations repoRoot platform :
  (includeSecrets config = false ->
   filter (fun item => isSecret item = true)
          (items (buildSyncPlan config locations repoRoot platform)) = []
   /\ extraSecrets_allowlist (buildSyncPlan config locations repoRoot platform) = [])
  /\ ((exists item,
         In item (items (buildSyncPlan config locations repoRoot platform))
         /\ isSecret item = true)
      \/ extraSecrets_allowlist (buildSyncPlan config locations repoRoot platform) <> []
      -> includeSecrets config = true).
Proof.
  unfold buildSyncPlan.
  destruct (includeSecrets config); split.
  - intros [=].
  - done.
  - intros _. split; reflexivity.
  - intros [(item & Hin & Hsecret) | Hlist]; [|done].
    cbn in Hin. exfalso.
    repeat (destruct Hin as [<- | Hin]; [discriminate Hsecret|]). done.
Qed.

End Planner.

(* ===================================================================== *)
(** * commit.ts: the helpers of the generator *)
(* ===================================================================== *)

Section MessageHelpers.

Lemma dropWhile_id p (s : jsstring) :
  (forall c, head s = Some c -> p c = false) -> dropWhile p s = s.
Proof.
  destruct s as [|a s]; cbn; [done|].
  intros H. by rewrite (H a eq_refl).
Qed.

Lemma dropWhileEnd_id p (s : jsstring) :
  (forall c, last s = Some c -> p c = false) -> dropWhileEnd p s = s.
Proof.
  intros H. unfold dropWhileEnd.
  rewrite dropWhile_id; [apply rev_involutive|].
  intros c Hc. apply H.
  rewrite <- (rev_involutive s).
  destruct (rev s) as [|a l]; [done|].
  cbn in *. rewrite last_snoc. done.
Qed.

Lemma trim_id (s : jsstring) :
  (forall c, head s = Some c \/ last s = Some c -> isWhiteSpace c = false) ->
  trim s = s.
Proof.
  intros H. unfold trim.
  rewrite (dropWhile_id isWhiteSpace s) by (intros c Hc; apply H; by left).
  apply dropWhileEnd_id. intros c Hc. apply H. by right.
Qed.

Lemma trim_ends (s : jsstring) c :
  head (trim s) = Some c \/ last (trim s) = Some c -> isWhiteSpace c = false.
Proof.
  unfold trim. intros [Hc|Hc].
  - apply dropWhileEnd_head in Hc. by apply dropWhile_head in Hc.
  - by apply dropWhileEnd_last in Hc.
Qed.

Lemma split_no_sep sep (s : jsstring) : ~ In sep s -> split sep s = [s].
Proof.
  induction s as [|c s IH]; cbn; [done|].
  intros Hn.
  destruct (N.eqb_spec c sep) as [->|Hne]; [exfalso; apply Hn; by left|].
  rewrite IH; [done|]. intros Hc. apply Hn. by right.
Qed.

Lemma split_segments_no_sep sep (s seg : jsstring) :
  In seg (split sep s) -> ~ In sep seg.
Proof.
  revert seg. induction s as [|c s IH]; cbn; intros seg.
  - intros [<-|[]]. by intros [].
  - destruct (N.eqb_spec c sep) as [->|Hne]; cbn.
    + intros [<-|Hs]; [by intros []|]. by apply IH.
    + destruct (split sep s) as [|seg0 rest] eqn:E; cbn.
      * intros [<-|[]]. intros [Hc|[]]. done.
      * intros [<-|Hs].
        -- intros [Hc|Hc]; [done|]. apply (IH seg0); [by left|done].
        -- apply IH. by right.
Qed.

Lemma find_skips skipped rest :
  Forall (fun part => isTextPart part = Ok false) skipped ->
  find (skipped ++ rest) = find rest.
Proof.
  induction 1 as [|part skipped Hp _ IH]; [done|].
  cbn [app find]. by rewrite Hp.
Qed.

(** X1: [sanitizeMessage] leaves a message alone that is already a clean
    commit subject: a single line of 1 to 72 code units with neither
    white space nor a quote character at either end. *)
Theorem sanitizeMessage_keeps_clean_messages m :
  cleanMessage m -> sanitizeMessage m = m.
Proof.
  intros (Hlf & [Hlo Hhi] & Hends).
  unfold sanitizeMessage.
  rewrite (split_no_sep LF m Hlf).
  change (default [] (head [m])) with m. cbv zeta.
  rewrite (trim_id m) by (intros c Hc; by apply Hends).
  unfold stripQuotes.
  rewrite (dropWhile_id isQuote m) by (intros c Hc; apply Hends; by left).
  rewrite (dropWhileEnd_id isQuote m) by (intros c Hc; apply Hends; by right).
  rewrite (trim_id m) by (intros c Hc; by apply Hends).
  destruct m as [|a m]; [cbn in Hlo; lia|].
  cbn [nonEmpty negb].
  apply Nat.leb_le in Hhi. by rewrite Hhi.
Qed.

Lemma sanitizeMessage_keeps_clean_messages_witness :
  cleanMessage (lit "Update opencode.json")
  /\ sanitizeMessage (lit "Update opencode.json") = lit "Update opencode.json".
Proof.
  assert (H : cleanMessage (lit "Update opencode.json")).
  { split; [|split].
    - vm_compute. intros H. repeat (destruct H as [H|H]; [discriminate H|]). done.
    - vm_compute. lia.
    - intros c [Hc|Hc]; vm_compute in Hc; injection Hc as <-; by vm_compute. }
  split; [exact H|].
  exact (sanitizeMessage_keeps_clean_messages _ H).
Defined.

(** X2: what [sanitizeMessage] returns neither starts nor ends with a
    white-space character, also when the message was cut at 72 code
    units. *)
Theorem sanitizeMessage_has_no_outer_white_space message c :
  head (sanitizeMessage message) = Some c \/ last (sanitizeMessage message) = Some c ->
  isWhiteSpace c = false.
Proof.
  unfold sanitizeMessage.
  destruct (negb _); [by intros [?|?]|].
  destruct (_ <=? _)%nat; apply trim_ends.
Qed.

Lemma sanitizeMessage_has_no_outer_white_space_witness :
  last (sanitizeMessage (lit "  'sync: agents'  ")) = Some 115
  /\ isWhiteSpace 115 = false.
Proof.
  assert (H : last (sanitizeMessage (lit "  'sync: agents'  ")) = Some 115)
    by (by vm_compute).
  split; [exact H|].
  exact (sanitizeMessage_has_no_outer_white_space _ 115 (or_intror H)).
Defined.

(** X3: [extractMessage] answers with the trimmed text of the first part
    that has type ['text'] and a truthy [text]: the parts before it are
    skipped, the parts after it are not looked at, and a [parts] array on
    the response itself takes precedence over [info.parts].  A [null] or
    [undefined] element met before any such part makes it throw. *)
Theorem extractMessage_first_text_part fields skipped part rest text :
  assoc (lit "parts") fields = Some (JArr (skipped ++ part :: rest)) ->
  Forall (fun p => isTextPart p = Ok false) skipped ->
  (getProp part "type" = JStr (lit "text") /\ getProp part "text" = JStr text
   /\ nonEmpty text = true ->
   extractMessage (JObj fields) = Ok (Some (trim text)))
  /\ (isNullish part = true ->
      exists e, extractMessage (JObj fields) = Err e /\ kind e = TypeError).
Proof.
  intros Hparts Hskip.
  unfold extractMessage. cbn [truthy typeofObject negb orb getProp].
  rewrite Hparts. unfold nullish_or. cbn [from_option id isNullish].
  rewrite (find_skips skipped (part :: rest) Hskip). cbn [find].
  split.
  - intros (Htype & Htext & Hne).
    assert (Hp : isTextPart part = Ok true).
    { unfold isTextPart.
      destruct part; try discriminate Htype.
      cbn [isNullish]. rewrite Htype, Htext. cbn [truthy].
      rewrite Hne. by rewrite bool_decide_eq_true_2. }
    rewrite Hp. unfold optChain.
    destruct part; try discriminate Htype.
    cbn [isNullish]. by rewrite Htext.
  - intros Hnull. unfold isTextPart. rewrite Hnull.
    eexists. split; reflexivity.
Qed.

Lemma extractMessage_first_text_part_witness :
  extractMessage
    (JObj [ (lit "info", JObj [(lit "parts", JArr [JNull])]);
            (lit "parts",
             JArr [ JObj [(lit "type", JStr (lit "step-start"))];
                    JObj [(lit "type", JStr (lit "text")); (lit "text", JStr (lit " sync agents "))];
                    JNull ]) ])
  = Ok (Some (lit "sync agents")).
Proof.
  refine (proj1 (extractMessage_first_text_part
                   _ [JObj [(lit "type", JStr (lit "step-start"))]]
                   (JObj [(lit "type", JStr (lit "text")); (lit "text", JStr (lit " sync agents "))])
                   [JNull] (lit " sync agents ") _ _) _).
  - reflexivity.
  - repeat constructor.
  - repeat split; reflexivity.
Defined.

End MessageHelpers.

(* ===================================================================== *)
(** * commit.ts: the calls of the generator *)
(* ===================================================================== *)

Section GeneratorCalls.

Lemma lookup_take_In {A} (n i : nat) (l : list A) x : take n l !! i = Some x -> In x l.
Proof.
  intros H. rewrite <- (take_drop n l). apply in_or_app. left.
  apply list_elem_of_In. by eapply list_elem_of_lookup_2.
Qed.

Lemma uint_no_LF d c : In c (lit (NilEmpty.string_of_uint d)) -> c <> LF.
Proof.
  induction d; cbn; try done.
  all: intros [<-|H]; [done | by apply IHd].
Qed.

Lemma String_of_Z_no_LF z : ~ In LF (String_of_Z z).
Proof.
  intros H.
  assert (Hu : forall d, ~ In LF (lit (NilZero.string_of_uint d))).
  { intros d Hd. destruct d; cbn in Hd;
      try (destruct Hd as [Hd|Hd]; [discriminate Hd|]);
      try done.
    all: by apply uint_no_LF in Hd. }
  unfold String_of_Z in H.
  destruct (Z.to_int z) as [d|d]; cbn in H.
  - by apply (Hu d).
  - destruct H as [H|H]; [discriminate H|]. by apply (Hu d).
Qed.

Lemma padStart0_no_LF n s : ~ In LF s -> ~ In LF (padStart0 n s).
Proof.
  intros Hs H. unfold padStart0 in H.
  apply in_app_or in H as [H|H]; [|done].
  apply list_elem_of_In, elem_of_replicate in H as [H _]. discriminate H.
Qed.

Lemma fallbackMessage_single_line d :
  nonEmpty (fallbackMessage d) = true /\ ~ In LF (fallbackMessage d).
Proof.
  split; [done|].
  unfold fallbackMessage, formatDate. intros H.
  rewrite !in_app_iff in H.
  repeat match goal with H : _ \/ _ |- _ => destruct H as [H|H] end.
  all: first [ exact (String_of_Z_no_LF _ H)
             | exact (padStart0_no_LF _ _ (String_of_Z_no_LF _) H)
             | vm_compute in H; repeat (destruct H as [H|H]; [discriminate H|]); done ].
Qed.

(** X4: [resolveSmallModel] makes exactly one call, [client.config.get].
    A failure of that call is an absent model, not an error; the only
    error it raises is the [TypeError] of calling [.split] on a model
    value that is not a string.  A model it returns has a non-empty
    provider id and a non-empty model id, neither containing a slash: the
    value is cut at its second slash. *)
Theorem resolveSmallModel_one_call_and_slash_free_ids o w :
  exists r outcome,
    resolveSmallModel o w = (r, extend w [Ev CConfigGet outcome])
    /\ match r, outcome with
       | Ok None, _ => True
       | Ok (Some model), Ok _ =>
           nonEmpty (providerID model) = true /\ nonEmpty (modelID model) = true
           /\ ~ In 47 (providerID model) /\ ~ In 47 (modelID model)
       | Err e, Ok _ => kind e = TypeError
       | _, Err _ => False
       end.
Proof.
  destruct w as [env cf sf tr].
  unfold resolveSmallModel, extend. norm.
  repeat step.
  all: do 2 eexists; split; [reflexivity|]; try done.
  destruct (take 2 (split 47 s) !! 0%nat) as [p|] eqn:Ep;
    destruct (take 2 (split 47 s) !! 1%nat) as [m|] eqn:Em;
    cbn in *; rewrite ?orb_true_r in *; try discriminate.
  destruct p; [discriminate|]. destruct m; [discriminate|].
  repeat split; try done.
  - apply lookup_take_In in Ep. by eapply split_segments_no_sep.
  - apply lookup_take_In in Em. by eapply split_segments_no_sep.
Qed.

(** X5: [getDiffSummary] never throws and runs at most the two [git diff]
    commands, in order: when the first throws the second is not run.  A
    throw of either gives the empty summary; otherwise the summary is made
    of the outputs that are not blank, so it is empty exactly when both
    are blank and carries no separator when one is. *)
Theorem getDiffSummary_never_throws repoDir o w :
  exists summary evs,
    getDiffSummary repoDir o w = (Ok summary, extend w evs)
    /\ ((exists e, evs = [Ev (CGitDiffNameStatus repoDir) (Err e)] /\ summary = [])
        \/ (exists nameStatus e,
              evs = [Ev (CGitDiffNameStatus repoDir) (Ok nameStatus);
                     Ev (CGitDiffStat repoDir) (Err e)]
              /\ summary = [])
        \/ (exists nameStatus stats,
              evs = [Ev (CGitDiffNameStatus repoDir) (Ok nameStatus);
                     Ev (CGitDiffStat repoDir) (Ok stats)]
              /\ summary = diffSummaryOf nameStatus stats
              /\ summary
                 = if nonEmpty (trim nameStatus)
                   then if nonEmpty (trim stats)
                        then trim nameStatus ++ [LF] ++ trim stats
                        else trim nameStatus
                   else trim stats)).
Proof.
  destruct w as [env cf sf tr].
  unfold getDiffSummary, extend. norm.
  repeat step.
  all: rewrite <- ?app_assoc; cbn [app].
  all: do 2 eexists; split; [reflexivity|].
  1: { right; right. do 2 eexists. split; [reflexivity|]. split; [reflexivity|].
       cbn [filter list_filter].
       repeat match goal with
              | |- context [decide ?P] => destruct (decide P)
              end.
       all: cbn [join].
       all: repeat match goal with
              | H : nonEmpty ?s = true |- _ => rewrite H
              | H : nonEmpty ?s <> true |- _ => apply not_true_is_false in H; rewrite H
              end.
       all: try reflexivity.
       match goal with
       | H : nonEmpty ?s = false |- [] = ?s => destruct s; [reflexivity | discriminate H]
       end. }
  - right; left. by do 2 eexists.
  - left. by eexists.
Qed.

(** X6: what [generateCommitMessage] returns is never empty and never has
    a line feed, whether the model wrote it or it is the fallback, and the
    only error it raises is a [TypeError].  The client is called exactly
    when both [git diff] commands returned and the summary made of them
    is not empty; a session call is made only after [config.get]
    answered. *)
Theorem generateCommitMessage_calls_and_result repoDir fd o w :
  exists r evs,
    generateCommitMessage repoDir fd o w = (r, extend w evs)
    /\ match r with
       | Ok m => nonEmpty m = true /\ ~ In LF m
       | Err e => kind e = TypeError
       end
    /\ existsb isClientCall evs
       = match diffOutputs evs with
         | [Ok nameStatus; Ok stats] => nonEmpty (diffSummaryOf nameStatus stats)
         | _ => false
         end
    /\ match omap configAnswer evs with
       | [] | [Err _] => existsb isSessionCall evs = false
       | [Ok _] => True
       | _ => False
       end.
Proof.
  destruct w as [env cf sf tr].
  unfold generateCommitMessage, getDiffSummary, resolveSmallModel, releaseSession, extend.
  destruct fd; norm.
  all: repeat step.
  all: rewrite <- ?app_assoc; cbn [app].
  all: do 2 eexists; split; [reflexivity|].
  all: unfold diffOutputs, diffSummaryOf;
       cbn [existsb omap list_omap isClientCall isSessionCall diffOutput configAnswer
            orb kind typeError].
  all: negb_hyps.
  all: repeat match goal with
         | H : nonEmpty ?s = _ |- context [nonEmpty ?s] => rewrite H
         end.
  all: try match goal with H : nonEmpty [] = true |- _ => discriminate H end.
  all: try match goal with H : false = true |- _ => discriminate H end.
  all: split; [first [ reflexivity | apply fallbackMessage_single_line
                     | split; [first [reflexivity | assumption]
                              | apply sanitizeMessage_single_line] ] |].
  all: split; [first [reflexivity | congruence] | first [exact I | reflexivity] ].
Qed.

Lemma unwrapData_error response :
  truthy (getProp response "error") = true -> unwrapData response = JNull.
Proof.
  intros H. unfold unwrapData. rewrite H.
  by destruct (negb (truthy response) || negb (typeofObject response)).
Qed.

(** X7: a [session.create] response that carries a truthy [error] is no
    session, whatever else it carries: [unwrapData] answers [null] for it,
    so no prompt is sent, nothing is deleted and the message is the
    fallback.  The same holds of a response without an [id]. *)
Theorem error_response_is_no_session repoDir fd o w :
  exists r evs,
    generateCommitMessage repoDir fd o w = (r, extend w evs)
    /\ match omap createAnswer evs with
       | [] => existsb usesSession evs = false
       | [Err _] =>
           existsb usesSession evs = false
           /\ r = Ok (fallbackMessage (dateOf fd o w))
       | [Ok response] =>
           if truthy (getProp response "error")
              || negb (truthy (sessionIdOf response))
           then existsb usesSession evs = false
                /\ r = Ok (fallbackMessage (dateOf fd o w))
           else True
       | _ => False
       end.
Proof.
  destruct w as [env cf sf tr].
  unfold generateCommitMessage, getDiffSummary, resolveSmallModel, releaseSession, extend.
  destruct fd; norm.
  all: repeat step.
  all: rewrite <- ?app_assoc; cbn [app].
  all: do 2 eexists; split; [reflexivity|].
  all: cbn [existsb omap list_omap createAnswer usesSession orb dateOf w_trace].
  all: negb_hyps.
  all: try reflexivity.
  all: try (split; reflexivity).
  all: try match goal with H : nonEmpty [] = true |- _ => discriminate H end.
  all: try match goal with H : false = true |- _ => discriminate H end.
  all: match goal with
       | H : truthy (sessionIdOf ?a) = _ |- _ =>
           rewrite H; destruct (truthy (getProp a "error")) eqn:Herr;
           cbn [negb orb]; try exact I; try (split; reflexivity);
           unfold sessionIdOf in H; rewrite (unwrapData_error a Herr) in H;
           discriminate H
       end.
Qed.

End GeneratorCalls.

(* ===================================================================== *)
(** * service.ts: what the flows call, and in which order *)
(* ===================================================================== *)

Lemma generator_stops evs rest :
  Forall (fun e => generatorEvent e = true) evs ->
  stopsAtFailure (evs ++ rest) = stopsAtFailure rest.
Proof.
  induction 1 as [|e evs He _ IH]; [done|].
  cbn [app stopsAtFailure]. unfold survivable. rewrite He, IH.
  by rewrite !orb_true_r.
Qed.

Lemma generator_stops_all evs :
  Forall (fun e => generatorEvent e = true) evs -> stopsAtFailure evs = true.
Proof.
  intros H. rewrite <- (app_nil_r evs). by rewrite generator_stops.
Qed.

Lemma generator_survivable evs :
  Forall (fun e => generatorEvent e = true) evs ->
  forallb (fun e => isOk e || survivable e) evs = true.
Proof.
  induction 1 as [|e evs He _ IH]; [done|].
  cbn [forallb]. rewrite IH. unfold survivable. rewrite He. by rewrite !orb_true_r.
Qed.

Lemma last_through {A} (e : A) l x l' : last (e :: l ++ x :: l') = last (x :: l').
Proof. by rewrite app_comm_cons, last_app_cons. Qed.

Ltac eval_more :=
  cbn [app existsb forallb omap list_omap head last negb andb orb isOk
       dirtyAnswer fetchAnswer privacyAnswer statePatch reconciledPlan loadedFrom
       isStateWrite isConfigWrite isRepoToLocal isLocalToRepo
       isFetch isCommit isPush isToast mutating commitsOrPushes failedStep
       length beforeFirst
       isClientCall isSessionCall diffOutput configAnswer commitMessage syncedBranch
       statusAnswer clonedAnswer isStatusCall isClone isConfigLoad repoCreation
       writtenConfig toastSent isLoadOrToast thrownByLoadOrToast isPrivacyCheck isSecretsStep isInitStep isStatusRead survivable stopsAtFailure thrownBy thrownHard generatorEvent
       messageCall
       mbind option_bind].

Ltac read_more :=
  proj;
  unfold dirtyChecks, fetches, privacyChecks, statePatches, none, completed,
    diffOutputs, commitMessages, observedBranch, lastThrown, firstFailure, lastToast;
  repeat (progress (eval_more;
                    rewrite ?forallb_app, ?existsb_app, ?omap_app, ?generator_stops
                      by assumption;
                    rewrite ?generator_stops_all, ?generator_survivable by assumption;
                    rewrite ?last_through;
                    hide_generator)).

Section Flows.
Context {deps : SyncDeps}.

Lemma generated_message_shape repoDir pre evs d m :
  m = fallbackMessage d \/ successPath repoDir pre evs m ->
  nonEmpty m = true /\ ~ In LF m.
Proof.
  intros [->|Hs]; [apply fallbackMessage_single_line|].
  destruct Hs as (? & ? & ? & ? & ? & ? & message & ? & _ & _ & _ & _ & _ & -> & Hm).
  split; [exact Hm | apply sanitizeMessage_single_line].
Qed.

Lemma pull_facts locations o w :
  exists r evs w',
    pull locations o w = (r, w')
    /\ w_trace w' = w_trace w ++ evs
    /\ stopsAtFailure evs = true
    /\ none isLocalToRepo evs && none isCommit evs && none isPush evs
       && none messageCall evs && none isConfigWrite evs = true
    /\ match r with
       | Ok _ => forallb (fun e => isOk e || survivable e) evs = true
       | Err e =>
           lastThrown evs = Some e
           \/ e = missingConfigError
           \/ exists root, e = dirtyError root "pulling"
                           /\ last (dirtyChecks evs) = Some (root, Ok true)
       end
    /\ match w_configFiles w !! syncConfigPath locations with
       | None =>
           (exists outcome, evs = [Ev (CLoadSyncConfig locations) outcome])
           /\ r = Err (default missingConfigError (lastThrown evs))
           /\ w' = extend w evs
       | Some config =>
           Forall (eq (resolveRepoBranch config (observedBranch evs)))
                  (omap syncedBranch evs)
           /\ (includeSecrets config = false -> privacyChecks evs = [])
           /\ (none mutating evs = false ->
               head (dirtyChecks evs) = Some (resolveRepoRoot config locations, Ok false)
               /\ completed isClone (beforeFirst mutating evs) = true)
       end.
Proof.
  destruct w as [env cf sf tr]. run.
  all: settle; leaf.
  all: read_more.
  all: split; [reflexivity|].
  all: split; [reflexivity|].
  all: split; [first [ reflexivity | left; reflexivity | right; left; reflexivity
                     | right; right; eexists; split; reflexivity ] |].
  all: first [ split; [eexists; reflexivity | split; reflexivity]
             | split; [repeat constructor|] ].
  all: split; [first [ intros _; reflexivity | intros Hx; cbn in *; congruence ] |].
  all: first [ intros Hx; discriminate Hx | intros _; split; reflexivity ].
Qed.

Lemma push_facts locations o w :
  exists r evs w',
    push locations o w = (r, w')
    /\ w_trace w' = w_trace w ++ evs
    /\ stopsAtFailure evs = true
    /\ none isFetch evs && none isRepoToLocal evs && none isConfigWrite evs
       && none isToast evs = true
    /\ match r with
       | Ok text =>
           forallb (fun e => isOk e || survivable e) evs = true
           /\ match commitMessages evs with
              | [] => text = lit "No local changes to push."
              | [m] => text = lit "Pushed changes: " ++ m
                       /\ nonEmpty m = true /\ ~ In LF m
              | _ => False
              end
       | Err e =>
           lastThrown evs = Some e
           \/ e = missingConfigError
           \/ illTypedConfig o
           \/ exists root, e = dirtyError root "pushing"
                           /\ last (dirtyChecks evs) = Some (root, Ok true)
       end
    /\ match w_configFiles w !! syncConfigPath locations with
       | None =>
           (exists outcome, evs = [Ev (CLoadSyncConfig locations) outcome])
           /\ r = Err (default missingConfigError (lastThrown evs))
           /\ w' = extend w evs
       | Some config =>
           Forall (eq (resolveRepoBranch config (observedBranch evs)))
                  (omap syncedBranch evs)
           /\ (includeSecrets config = false -> privacyChecks evs = [])
           /\ (none mutating evs = false ->
               head (dirtyChecks evs) = Some (resolveRepoRoot config locations, Ok false)
               /\ completed isClone (beforeFirst mutating evs) = true)
           /\ (none messageCall evs = false ->
               dirtyChecks evs = [ (resolveRepoRoot config locations, Ok false);
                                   (resolveRepoRoot config locations, Ok true) ])
       end.
Proof.
  destruct w as [env cf sf tr]. run.
  all: settle; leaf.
  all: try match goal with
       | H : _ = fallbackMessage _ \/ successPath _ _ _ _ |- _ =>
           apply generated_message_shape in H; destruct H
       end.
  all: read_more.
  all: split; [reflexivity|].
  all: split; [reflexivity|].
  all: split; [first [ reflexivity | left; reflexivity | right; left; reflexivity
                     | split; [reflexivity|]; first [reflexivity | by repeat split]
                     | right; right; left; assumption
                     | right; right; right; eexists; split; reflexivity ] |].
  all: first [ split; [eexists; reflexivity | split; reflexivity]
             | split; [repeat constructor|] ].
  all: split; [first [ intros _; reflexivity | intros Hx; cbn in *; congruence ] |].
  all: split; [first [ intros Hx; discriminate Hx | intros _; split; reflexivity ] |].
  all: first [ intros _; reflexivity | intros Hx; discriminate Hx ].
Qed.

End Flows.

Section SmallFlows.
Context {deps : SyncDeps}.

Lemma enableSecrets_facts locations extraPaths o w :
  exists r evs w',
    enableSecrets locations extraPaths o w = (r, w')
    /\ w_trace w' = w_trace w ++ evs
    /\ stopsAtFailure evs = true
    /\ forallb isSecretsStep evs = true
    /\ w_stateFiles w' = w_stateFiles w
    /\ match r with
       | Ok text =>
           text = lit "Secrets sync enabled for this repo."
           /\ exists config,
                w_configFiles w !! syncConfigPath locations = Some config
                /\ evs = [ Ev (CLoadSyncConfig locations) (Ok tt);
                           Ev (CEnsureRepoPrivate (withSecrets config extraPaths)) (Ok tt);
                           Ev (CWriteSyncConfig locations (withSecrets config extraPaths))
                              (Ok tt) ]
                /\ w_configFiles w'
                   = <[syncConfigPath locations := withSecrets config extraPaths]>
                       (w_configFiles w)
       | Err e =>
           (lastThrown evs = Some e \/ e = missingConfigError)
           /\ w_configFiles w' = w_configFiles w
       end
    /\ match w_configFiles w !! syncConfigPath locations with
       | None =>
           (exists outcome, evs = [Ev (CLoadSyncConfig locations) outcome])
           /\ r = Err (default missingConfigError (lastThrown evs))
           /\ w' = extend w evs
       | Some _ => True
       end.
Proof.
  destruct w as [env cf sf tr]. run.
  all: settle; leaf.
  all: read_more.
  all: split; [reflexivity|].
  all: split; [reflexivity|].
  all: split; [reflexivity|].
  all: split; [first [ split; [first [left; reflexivity | right; reflexivity] | reflexivity]
                     | split; [reflexivity|]; eexists; split; [reflexivity|];
                       split; reflexivity ] |].
  all: first [ exact I | split; [eexists; reflexivity | split; reflexivity] ].
Qed.

Lemma init_facts locations options o w :
  exists r evs w',
    init locations options o w = (r, w')
    /\ w_trace w' = w_trace w ++ evs
    /\ stopsAtFailure evs = true
    /\ forallb isInitStep evs = true
    /\ w_stateFiles w' = w_stateFiles w
    /\ (includeSecrets (buildConfigFromInit options) = false -> privacyChecks evs = [])
    /\ match repo (buildConfigFromInit options) with
       | None => r = Err noRepoInfoError /\ evs = [] /\ w' = w
       | Some _ =>
           match omap repoCreation evs with
           | [] => True
           | [(visibility, outcome)] =>
               opt_create options = Some true
               /\ visibility = (if default true (opt_private options)
                                then lit "--private" else lit "--public")
               /\ head evs ≫= repoCreation = Some (visibility, outcome)
               /\ match outcome with
                  | Ok _ => True
                  | Err cause =>
                      r = Err (createFailedError cause)
                      /\ length evs = 1%nat
                      /\ w_configFiles w' = w_configFiles w
                  end
           | _ => False
           end
           /\ match r with
              | Ok text =>
                  text = initReport locations (buildConfigFromInit options)
                  /\ forallb isOk evs = true
                  /\ w_configFiles w'
                     = <[syncConfigPath locations := buildConfigFromInit options]>
                         (w_configFiles w)
                  /\ omap writtenConfig evs = [buildConfigFromInit options]
                  /\ completed isClone evs = true
                  /\ privacyChecks evs
                     = (if includeSecrets (buildConfigFromInit options) then [Ok tt] else [])
              | Err e =>
                  lastThrown evs = Some e
                  \/ (e = ownerNameError /\ evs = []
                      /\ opt_create options = Some true)
                  \/ (exists cause, lastThrown evs = Some cause
                                    /\ e = createFailedError cause)
              end
       end.
Proof.
  destruct w as [env cf sf tr]. run.
  all: settle; leaf.
  all: read_more.
  all: split; [reflexivity|].
  all: split; [reflexivity|].
  all: split; [reflexivity|].
  all: split; [first [ intros _; reflexivity | intros Hx; cbn in *; congruence ] |].
  all: try (split; [reflexivity | split; reflexivity]).
  all: destruct (opt_create options) as [[|]|] eqn:Ecreate; try discriminate.
  all: split; [first [ exact I
                     | split; [reflexivity|]; split; [reflexivity|]; split; [reflexivity|];
                       first [exact I | split; [reflexivity|]; split; reflexivity] ] |].
  all: first [ left; reflexivity
             | right; left; split; [reflexivity|]; split; reflexivity
             | right; right; eexists; split; reflexivity
             | idtac ].
  all: match goal with H : includeSecrets _ = _ |- _ => rewrite ?H end.
  all: repeat split; reflexivity.
Qed.

Lemma status_facts locations o w :
  exists r evs,
    status locations o w = (r, extend w evs)
    /\ stopsAtFailure evs = true
    /\ forallb isStatusRead evs = true
    /\ match r with
       | Err e =>
           lastThrown evs = Some e /\ omap statusAnswer evs = []
           /\ match w_configFiles w !! syncConfigPath locations with
              | None => evs = [Ev (CLoadSyncConfig locations) (Err e)]
              | Some _ => True
              end
       | Ok text =>
           forallb (fun e => isOk e || survivable e) evs = true
           /\ match w_configFiles w !! syncConfigPath locations with
           | None =>
               text = lit "opencode-sync is not configured. Run /opencode-sync-init to set it up."
               /\ evs = [Ev (CLoadSyncConfig locations) (Ok tt)]
           | Some config =>
               match omap clonedAnswer evs, omap statusAnswer evs with
               | [Ok false], [] =>
                   text = statusReport config (resolveRepoBranch config None)
                            (persisted locations w) (lit "not cloned")
               | [Ok true], [Err _] =>
                   text = statusReport config (resolveRepoBranch config None)
                            (persisted locations w) (lit "unknown")
               | [Ok true], [Ok observed] =>
                   text = statusReport config (status_branch observed)
                            (persisted locations w)
                            (pendingLabel (status_changes observed))
               | _, _ => False
               end
           end
       end.
Proof.
  destruct w as [env cf sf tr]. unfold extend. run.
  all: settle.
  all: proj; rewrite <- ?app_assoc in *; eexists _, _; split; [reflexivity|].
  all: read_more.
  all: split; [reflexivity|].
  all: split; [reflexivity|].
  all: try (split; [reflexivity|]; split; [reflexivity|]; first [exact I | reflexivity]).
  all: try (split; [reflexivity|]).
  all: try (split; reflexivity).
  all: try reflexivity.
  all: unfold statusReport, persisted, pendingLabel; proj.
  all: repeat match goal with H : includeSecrets _ = _ |- _ => rewrite H; clear H end.
  all: try reflexivity.
  all: try match goal with
           | |- context [status_changes ?a] =>
               destruct (status_changes a) as [|first rest] eqn:Ech
           end;
       try discriminate; try reflexivity.
  all: repeat match goal with
         | H : context [(?a :: ?l) !! 0%nat] |- _ =>
             change ((a :: l) !! 0%nat) with (Some a) in H
         end.
  all: repeat case_bool_decide; try discriminate; try reflexivity; try congruence.
Qed.

End SmallFlows.

Section StartupFlow.
Context {deps : SyncDeps}.

Lemma runStartup_facts locations config o w :
  exists r evs w',
    runStartup locations config o w = (r, w')
    /\ w_trace w' = w_trace w ++ evs
    /\ stopsAtFailure evs = true
    /\ none isConfigWrite evs && none isConfigLoad evs = true
    /\ match r with
       | Ok _ => forallb (fun e => isOk e || survivable e) evs = true
       | Err e => lastThrown evs = Some e \/ illTypedConfig o
       end
    /\ Forall (eq (resolveRepoBranch config (observedBranch evs))) (omap syncedBranch evs)
    /\ (includeSecrets config = false -> privacyChecks evs = [])
    /\ (none mutating evs = false ->
        head (dirtyChecks evs) = Some (resolveRepoRoot config locations, Ok false)
        /\ completed isClone (beforeFirst mutating evs) = true)
    /\ (none messageCall evs = false ->
        dirtyChecks evs = [ (resolveRepoRoot config locations, Ok false);
                            (resolveRepoRoot config locations, Ok true) ]
        /\ fetches evs = [Ok (mkFetchResult false)])
    /\ match omap toastSent evs with
       | [] => True
       | [sent] =>
           lastToast evs = Some sent
           /\ (sent = (startupDirtyToast (resolveRepoRoot config locations), warning)
               \/ sent = (restartToast, info))
       | _ => False
       end.
Proof.
  destruct w as [env cf sf tr]. run.
  all: settle; leaf.
  all: read_more.
  all: split; [reflexivity|].
  all: split; [reflexivity|].
  all: split; [first [ reflexivity | left; reflexivity | right; assumption ] |].
  all: split; [repeat constructor|].
  all: split; [first [ intros _; reflexivity | intros Hx; cbn in *; congruence ] |].
  all: split; [first [ intros Hx; discriminate Hx | intros _; split; reflexivity ] |].
  all: split; [first [ intros _; split; reflexivity | intros Hx; discriminate Hx ] |].
  all: first [ exact I
             | split; [reflexivity|]; first [left; reflexivity | right; reflexivity] ].
Qed.

Lemma startupSync_facts locations o w :
  exists r evs w',
    startupSync locations o w = (r, w')
    /\ w_trace w' = w_trace w ++ evs
    /\ w_configFiles w' = w_configFiles w
    /\ none isConfigWrite evs = true
    /\ match r with
       | Ok _ => True
       | Err e => last evs ≫= thrownByLoadOrToast = Some e
       end
    /\ match w_configFiles w !! syncConfigPath locations with
       | Some _ =>
           match firstFailure evs with
           | None => True
           | Some e =>
               evs = [Ev (CLoadSyncConfig locations) (Err e)]
               \/ illTypedConfig o
               \/ lastToast evs = Some (errorToast e)
           end
       | None =>
           w' = extend w evs
           /\ ((exists e, evs = [Ev (CLoadSyncConfig locations) (Err e)] /\ r = Err e)
               \/ (exists delivered,
                     evs = [ Ev (CLoadSyncConfig locations) (Ok tt);
                             Ev (CShowToast configureToast info) delivered ]
                     /\ r = delivered))
       end.
Proof.
  destruct w as [env cf sf tr]. run.
  all: settle; leaf.
  all: read_more.
  all: split; [reflexivity|].
  all: split; [reflexivity|].
  all: split; [first [exact I | reflexivity] |].
  all: first [ exact I | left; reflexivity | right; left; assumption
             | right; right; reflexivity
             | split; [reflexivity|];
               first [ left; eexists; split; reflexivity
                     | right; eexists; split; reflexivity ] ].
Qed.

End StartupFlow.

(* ===================================================================== *)
(** * service.ts: properties of the flows *)
(* ===================================================================== *)

Lemma none_existsb p evs : none p evs = negb (existsb p evs).
Proof.
  unfold none. induction evs as [|e evs IH]; [done|].
  cbn [forallb existsb]. rewrite IH. by destruct (p e).
Qed.

Lemma forallb_weaken (p q : Event -> bool) evs :
  (forall e, p e = true -> q e = true) ->
  forallb p evs = true -> forallb q evs = true.
Proof.
  intros Hpq. induction evs as [|e evs IH]; [done|].
  cbn [forallb]. intros [Hp Hps]%andb_true_iff.
  by rewrite (Hpq e Hp), IH.
Qed.

Section FlowProperties.
Context {deps : SyncDeps}.

(** X8: on a machine without a sync configuration, [pull], [push] and
    [enableSecrets] make the one call that loads the configuration and
    throw: the loader's error when the load threw, the
    [SyncConfigMissingError] otherwise.  Nothing else is called and
    nothing is written. *)
Theorem missing_config_stops_the_flow locations extraPaths o w :
  w_configFiles w !! syncConfigPath locations = None ->
  Forall (fun flow : M jsstring =>
            exists loaded,
              flow o w
              = (Err (match loaded with Ok _ => missingConfigError | Err e => e end),
                 extend w [Ev (CLoadSyncConfig locations) loaded]))
         [pull locations; push locations; enableSecrets locations extraPaths].
Proof.
  intros Hnone.
  destruct (pull_facts locations o w) as (r1 & evs1 & w1 & Hrun1 & _ & _ & _ & _ & H1).
  destruct (push_facts locations o w) as (r2 & evs2 & w2 & Hrun2 & _ & _ & _ & _ & H2).
  destruct (enableSecrets_facts locations extraPaths o w)
    as (r3 & evs3 & w3 & Hrun3 & _ & _ & _ & _ & _ & H3).
  rewrite Hnone in H1, H2, H3.
  destruct H1 as ([l1 ->] & -> & ->), H2 as ([l2 ->] & -> & ->),
           H3 as ([l3 ->] & -> & ->).
  repeat constructor.
  - exists l1. rewrite Hrun1. by destruct l1.
  - exists l2. rewrite Hrun2. by destruct l2.
  - exists l3. rewrite Hrun3. by destruct l3.
Qed.

(** X9: on a machine without a sync configuration, [status] answers with
    the not-configured text and the startup operation sends the
    informational toast that points at [/opencode-sync-init], returning
    what the toast returns; both make no other call than the load, and
    both propagate a throw of the load. *)
Theorem unconfigured_status_and_startup locations o w :
  w_configFiles w !! syncConfigPath locations = None ->
  (exists loaded,
     status locations o w
     = (match loaded with
        | Ok _ => Ok (lit "opencode-sync is not configured. Run /opencode-sync-init to set it up.")
        | Err e => Err e
        end,
        extend w [Ev (CLoadSyncConfig locations) loaded]))
  /\ ((exists e,
         startupSync locations o w
         = (Err e, extend w [Ev (CLoadSyncConfig locations) (Err e)]))
      \/ (exists delivered,
            startupSync locations o w
            = (delivered,
               extend w [ Ev (CLoadSyncConfig locations) (Ok tt);
                          Ev (CShowToast configureToast info) delivered ]))).
Proof.
  intros Hnone. split.
  - destruct (status_facts locations o w) as (r & evs & Hrun & _ & _ & H).
    rewrite Hnone in H. destruct r as [text|e].
    + destruct H as (_ & -> & ->). by exists (Ok tt).
    + destruct H as (_ & _ & ->). by exists (Err e).
  - destruct (startupSync_facts locations o w)
      as (r & evs & w' & Hrun & _ & _ & _ & _ & H).
    rewrite Hnone in H. destruct H as (-> & [(e & -> & ->)|(delivered & -> & ->)]).
    + left. by exists e.
    + right. by exists delivered.
Qed.

(** X10: [pull], [push], [enableSecrets], [init], [status] and the startup
    run stop at the first call that throws: no call follows it, except
    after a throw of [getRepoStatus] or of a call of the commit-message
    generator, which are caught.  A flow that returns normally saw no
    other throw, and an error a flow raises is the error of its last call
    or one the flow made itself. *)
Theorem flows_stop_at_the_first_failure locations options extraPaths config o w :
  stopsAtFirstFailure (pull locations) o w
  /\ stopsAtFirstFailure (push locations) o w
  /\ stopsAtFirstFailure (enableSecrets locations extraPaths) o w
  /\ stopsAtFirstFailure (init locations options) o w
  /\ stopsAtFirstFailure (status locations) o w
  /\ stopsAtFirstFailure (runStartup locations config) o w.
Proof.
  unfold stopsAtFirstFailure, runs. repeat split.
  - destruct (pull_facts locations o w) as (r & evs & w' & Hrun & Htr & Hstop & _ & Hr & _).
    exists r, evs, w'. repeat split; try done.
    destruct r as [|e]; [done|].
    destruct Hr as [?|[->|(root & -> & _)]]; auto.
  - destruct (push_facts locations o w) as (r & evs & w' & Hrun & Htr & Hstop & _ & Hr & _).
    exists r, evs, w'. repeat split; try done.
    destruct r as [|e]; [by destruct Hr|].
    destruct Hr as [?|[->|[?|(root & -> & _)]]]; auto.
  - destruct (enableSecrets_facts locations extraPaths o w)
      as (r & evs & w' & Hrun & Htr & Hstop & _ & _ & Hr & _).
    exists r, evs, w'. repeat split; try done.
    destruct r as [|e].
    + destruct Hr as (_ & ? & _ & -> & _). done.
    + destruct Hr as [[?| ->] _]; auto.
  - destruct (init_facts locations options o w)
      as (r & evs & w' & Hrun & Htr & Hstop & _ & _ & _ & Hr).
    exists r, evs, w'. repeat split; try done.
    destruct (repo (buildConfigFromInit options)).
    + destruct Hr as [_ Hr]. destruct r as [|e].
      * destruct Hr as (_ & Hok & _).
        revert Hok. apply forallb_weaken. intros ? ->. done.
      * destruct Hr as [?|[(-> & _)|(cause & _ & ->)]]; auto.
    + destruct Hr as (-> & -> & _). auto.
  - destruct (status_facts locations o w) as (r & evs & Hrun & Hstop & _ & Hr).
    exists r, evs, (extend w evs). repeat split; try done.
    destruct r as [|e]; [by destruct Hr|]. left. by destruct Hr.
  - destruct (runStartup_facts locations config o w)
      as (r & evs & w' & Hrun & Htr & Hstop & _ & Hr & _).
    exists r, evs, w'. repeat split; try done.
    destruct r as [|e]; [done|]. destruct Hr; auto.
Qed.

(** X11: [pull] never reconciles local-to-repo, commits, pushes, asks for
    a commit message or writes the configuration; [push] never fetches,
    reconciles repo-to-local, writes the configuration or sends a toast. *)
Theorem pull_and_push_are_one_directional locations o w :
  runs (pull locations) o w (fun _ evs _ =>
    existsb isLocalToRepo evs = false /\ existsb isCommit evs = false
    /\ existsb isPush evs = false /\ existsb messageCall evs = false
    /\ existsb isConfigWrite evs = false)
  /\ runs (push locations) o w (fun _ evs _ =>
       existsb isFetch evs = false /\ existsb isRepoToLocal evs = false
       /\ existsb isConfigWrite evs = false /\ existsb isToast evs = false).
Proof.
  unfold runs. split.
  - destruct (pull_facts locations o w) as (r & evs & w' & Hrun & Htr & _ & Hnone & _).
    exists r, evs, w'. split; [done|]. split; [done|].
    rewrite !none_existsb, !andb_true_iff, !negb_true_iff in Hnone.
    by destruct_and!.
  - destruct (push_facts locations o w) as (r & evs & w' & Hrun & Htr & _ & Hnone & _).
    exists r, evs, w'. split; [done|]. split; [done|].
    rewrite !none_existsb, !andb_true_iff, !negb_true_iff in Hnone.
    by destruct_and!.
Qed.

(** X12: the branch [pull] and the startup run fetch, and the branch
    [push] and the startup run push, is [resolveRepoBranch] of the
    configuration and of the branch [getRepoStatus] observed in that run,
    or of the configuration alone when [getRepoStatus] threw: the throw is
    not an error of the flow. *)
Theorem sync_uses_the_observed_branch locations config o w :
  w_configFiles w !! syncConfigPath locations = Some config ->
  runs (pull locations) o w (fun _ evs _ =>
    Forall (eq (resolveRepoBranch config (observedBranch evs))) (omap syncedBranch evs))
  /\ runs (push locations) o w (fun _ evs _ =>
       Forall (eq (resolveRepoBranch config (observedBranch evs))) (omap syncedBranch evs))
  /\ runs (runStartup locations config) o w (fun _ evs _ =>
       Forall (eq (resolveRepoBranch config (observedBranch evs))) (omap syncedBranch evs)).
Proof.
  intros Hsome. unfold runs. repeat split.
  - destruct (pull_facts locations o w) as (r & evs & w' & Hrun & Htr & _ & _ & _ & H).
    rewrite Hsome in H. exists r, evs, w'. by destruct H.
  - destruct (push_facts locations o w) as (r & evs & w' & Hrun & Htr & _ & _ & _ & H).
    rewrite Hsome in H. exists r, evs, w'. by destruct H.
  - destruct (runStartup_facts locations config o w)
      as (r & evs & w' & Hrun & Htr & _ & _ & _ & H & _).
    by exists r, evs, w'.
Qed.

(** X13: with [includeSecrets] off in the stored configuration, [pull],
    [push] and the startup run never call [ensureRepoPrivate]. *)
Theorem no_privacy_check_without_secrets locations config o w :
  w_configFiles w !! syncConfigPath locations = Some config ->
  includeSecrets config = false ->
  runs (pull locations) o w (fun _ evs _ => privacyChecks evs = [])
  /\ runs (push locations) o w (fun _ evs _ => privacyChecks evs = [])
  /\ runs (runStartup locations config) o w (fun _ evs _ => privacyChecks evs = []).
Proof.
  intros Hsome Hoff. unfold runs. repeat split.
  - destruct (pull_facts locations o w) as (r & evs & w' & Hrun & Htr & _ & _ & _ & H).
    rewrite Hsome in H. exists r, evs, w'. destruct H as (_ & H & _). auto.
  - destruct (push_facts locations o w) as (r & evs & w' & Hrun & Htr & _ & _ & _ & H).
    rewrite Hsome in H. exists r, evs, w'. destruct H as (_ & H & _). auto.
  - destruct (runStartup_facts locations config o w)
      as (r & evs & w' & Hrun & Htr & _ & _ & _ & _ & H & _).
    exists r, evs, w'. auto.
Qed.

(** X14: in [pull], [push] and the startup run, a call that reconciles,
    fetches, commits, pushes or writes a persisted document is made only
    after [ensureRepoCloned] came back normally and the first
    [hasLocalChanges] of the run answered false for the repo root of the
    stored configuration. *)
Theorem mutation_only_after_clone_and_clean_check locations config o w :
  w_configFiles w !! syncConfigPath locations = Some config ->
  let guarded (evs : list Event) :=
    if existsb mutating evs
    then head (dirtyChecks evs) = Some (resolveRepoRoot config locations, Ok false)
         /\ completed isClone (beforeFirst mutating evs) = true
    else True in
  runs (pull locations) o w (fun _ evs _ => guarded evs)
  /\ runs (push locations) o w (fun _ evs _ => guarded evs)
  /\ runs (runStartup locations config) o w (fun _ evs _ => guarded evs).
Proof.
  intros Hsome guarded. unfold runs, guarded. repeat split.
  - destruct (pull_facts locations o w) as (r & evs & w' & Hrun & Htr & _ & _ & _ & H).
    rewrite Hsome in H. exists r, evs, w'. destruct H as (_ & _ & H).
    rewrite none_existsb in H. destruct (existsb mutating evs); auto.
  - destruct (push_facts locations o w) as (r & evs & w' & Hrun & Htr & _ & _ & _ & H).
    rewrite Hsome in H. exists r, evs, w'. destruct H as (_ & _ & H & _).
    rewrite none_existsb in H. destruct (existsb mutating evs); auto.
  - destruct (runStartup_facts locations config o w)
      as (r & evs & w' & Hrun & Htr & _ & _ & _ & _ & _ & H & _).
    exists r, evs, w'.
    rewrite none_existsb in H. destruct (existsb mutating evs); auto.
Qed.

End FlowProperties.

Section FlowResults.
Context {deps : SyncDeps}.

(** X15: the repo reference [resolveRepoFromInit] builds carries the
    branch of the options and is either a URL reference, with a non-empty
    URL and neither owner nor name, or an owner/name reference, with both
    non-empty and no URL.  [url] wins over [owner] and [name], which win
    over [repo]; a [repo] string is taken as a URL when it contains
    ["://"] or ends in [".git"], and is otherwise cut at its slashes, the
    first two pieces being owner and name.  Without [url] and without the
    pair, and with no usable [repo], there is no reference. *)
Theorem resolveRepoFromInit_shape options :
  match resolveRepoFromInit options with
  | Some r =>
      repo_branch r = opt_branch options
      /\ ((truthyOpt (repo_url r) = true /\ repo_owner r = None /\ repo_name r = None)
          \/ (repo_url r = None /\ truthyOpt (repo_owner r) = true
              /\ truthyOpt (repo_name r) = true))
      /\ (if truthyOpt (opt_url options) then repo_url r = opt_url options
          else if truthyOpt (opt_owner options) && truthyOpt (opt_name options)
          then repo_owner r = opt_owner options /\ repo_name r = opt_name options
          else match opt_repo options with
               | Some s =>
                   if includes (lit "://") s || endsWith (lit ".git") s
                   then repo_url r = Some s
                   else match repo_owner r, repo_name r with
                        | Some owner, Some name =>
                            repo_url r = None /\ ~ In 47 owner /\ ~ In 47 name
                        | _, _ => False
                        end
               | None => False
               end)
  | None =>
      truthyOpt (opt_url options) = false
      /\ truthyOpt (opt_owner options) && truthyOpt (opt_name options) = false
  end.
Proof.
  unfold resolveRepoFromInit.
  destruct (truthyOpt (opt_url options)) eqn:Hurl; cbn [repo_branch repo_url repo_owner repo_name].
  { rewrite Hurl. split; [done|]. split; [by left | done]. }
  destruct (truthyOpt (opt_owner options) && truthyOpt (opt_name options)) eqn:Hpair;
    cbn [repo_branch repo_url repo_owner repo_name].
  { apply andb_true_iff in Hpair as [Ho Hn]. rewrite Ho, Hn.
    split; [done|]. split; [by right | done]. }
  destruct (opt_repo options) as [s|]; [|done].
  destruct (nonEmpty s) eqn:Hs; cbn [negb]; [|done].
  destruct (includes (lit "://") s || endsWith (lit ".git") s) eqn:Hform;
    cbn [repo_branch repo_url repo_owner repo_name].
  { cbn [truthyOpt]. rewrite Hs. split; [done|]. split; [by left | done]. }
  destruct (split 47 s !! 0%nat) as [owner|] eqn:Eo; [|done].
  destruct (split 47 s !! 1%nat) as [name|] eqn:En;
    [|cbn [truthyOpt]; by rewrite andb_false_r].
  destruct (truthyOpt (Some owner) && truthyOpt (Some name)) eqn:Hboth; [|done].
  cbn [repo_branch repo_url repo_owner repo_name].
  apply andb_true_iff in Hboth as [Ho Hn]. rewrite Ho, Hn.
  split; [done|]. split; [by right|]. split; [done|].
  split; eapply split_segments_no_sep, list_elem_of_In, list_elem_of_lookup_2; eassumption.
Qed.

(** X16: what [push] answers names the commit it made: without a commit
    the answer is the no-changes text, and otherwise it is
    ["Pushed changes: "] followed by the very message handed to the one
    [commitAll], which is never empty and never has a line feed, whether
    the model wrote it or it is the fallback. *)
Theorem push_reports_the_commit_message locations o w :
  runs (push locations) o w (fun r evs _ =>
    match r, commitMessages evs with
    | Ok text, [] => text = lit "No local changes to push."
    | Ok text, [m] =>
        text = lit "Pushed changes: " ++ m /\ nonEmpty m = true /\ ~ In LF m
    | Ok _, _ => False
    | Err _, _ => True
    end).
Proof.
  destruct (push_facts locations o w) as (r & evs & w' & Hrun & Htr & _ & _ & Hr & _).
  exists r, evs, w'. split; [done|]. split; [done|].
  destruct r as [text|e]; [|by destruct (commitMessages evs)].
  by destruct Hr.
Qed.

(** X17: a commit message is asked for -- the two [git diff] commands
    run, the client is called -- only in [push] and in the startup run,
    and there only after the clean pre-check and once the second
    [hasLocalChanges], after the local-to-repo reconciliation, answered
    true; in the startup run, only when the fetch brought no update. *)
Theorem commit_message_requested_only_for_changes locations config o w :
  w_configFiles w !! syncConfigPath locations = Some config ->
  let changed (evs : list Event) :=
    dirtyChecks evs = [ (resolveRepoRoot config locations, Ok false);
                        (resolveRepoRoot config locations, Ok true) ] in
  runs (push locations) o w (fun _ evs _ =>
    if existsb messageCall evs then changed evs else True)
  /\ runs (runStartup locations config) o w (fun _ evs _ =>
       if existsb messageCall evs
       then changed evs /\ fetches evs = [Ok (mkFetchResult false)]
       else True).
Proof.
  intros Hsome changed. unfold runs, changed. split.
  - destruct (push_facts locations o w) as (r & evs & w' & Hrun & Htr & _ & _ & _ & H).
    rewrite Hsome in H. exists r, evs, w'. destruct H as (_ & _ & _ & H).
    rewrite none_existsb in H. destruct (existsb messageCall evs); auto.
  - destruct (runStartup_facts locations config o w)
      as (r & evs & w' & Hrun & Htr & _ & _ & _ & _ & _ & _ & H & _).
    exists r, evs, w'.
    rewrite none_existsb in H. destruct (existsb messageCall evs); auto.
Qed.

(** X18: [status] only reads: its calls are the two loads, [isRepoCloned]
    and [getRepoStatus]; it sends no toast and leaves the persisted
    documents as they were.  A throw of [getRepoStatus] is not an error of
    [status]: when [status] throws, [getRepoStatus] was not called. *)
Theorem status_only_reads locations o w :
  exists r evs,
    status locations o w = (r, extend w evs)
    /\ forallb isStatusRead evs = true
    /\ match r with
       | Ok _ => True
       | Err e => lastThrown evs = Some e /\ omap statusAnswer evs = []
       end.
Proof.
  destruct (status_facts locations o w) as (r & evs & Hrun & _ & Hread & Hr).
  exists r, evs. split; [done|]. split; [done|].
  destruct r as [|e]; [done|]. by destruct Hr as (? & ? & _).
Qed.

(** X19: the report of [status] on a configured machine.  Without a clone
    [getRepoStatus] is not called, the branch is the configured one and
    the working tree is ["not cloned"]; when [getRepoStatus] threw, the
    branch is the configured one and the working tree ["unknown"];
    otherwise the branch is the observed one and the working tree is
    labelled by the changes listed.  Absent [lastPull] and [lastPush] read
    ["never"]. *)
Theorem status_report locations config o w :
  w_configFiles w !! syncConfigPath locations = Some config ->
  exists r evs,
    status locations o w = (r, extend w evs)
    /\ match r, omap clonedAnswer evs, omap statusAnswer evs with
       | Ok text, [Ok false], [] =>
           text = statusReport config (resolveRepoBranch config None)
                    (persisted locations w) (lit "not cloned")
       | Ok text, [Ok true], [Err _] =>
           text = statusReport config (resolveRepoBranch config None)
                    (persisted locations w) (lit "unknown")
       | Ok text, [Ok true], [Ok observed] =>
           text = statusReport config (status_branch observed)
                    (persisted locations w) (pendingLabel (status_changes observed))
       | Ok _, _, _ => False
       | Err _, _, _ => True
       end.
Proof.
  intros Hsome.
  destruct (status_facts locations o w) as (r & evs & Hrun & _ & _ & Hr).
  exists r, evs. split; [done|].
  rewrite Hsome in Hr.
  destruct r as [text|e].
  - by destruct Hr as [_ Hr].
  - by repeat case_match.
Qed.

(** X20: [init] without usable repo info throws before any call and
    leaves the world as it was.  With it, the repo is created only when
    [create] is set, as the first call, and private unless [private] is
    false; a failing creation is wrapped in a [SyncCommandError] that
    carries its message, and nothing has been written then.  [init] never
    reconciles, fetches, commits, pushes or writes the state. *)
Theorem init_creates_the_repo_first locations options o w :
  runs (init locations options) o w (fun r evs w' =>
    forallb isInitStep evs = true
    /\ w_stateFiles w' = w_stateFiles w
    /\ match repo (buildConfigFromInit options), omap repoCreation evs with
       | None, _ => r = Err noRepoInfoError /\ evs = [] /\ w' = w
       | Some _, [] => True
       | Some _, [(visibility, outcome)] =>
           opt_create options = Some true
           /\ visibility = (if default true (opt_private options)
                            then lit "--private" else lit "--public")
           /\ head evs ≫= repoCreation = Some (visibility, outcome)
           /\ match outcome with
              | Ok _ => True
              | Err cause =>
                  r = Err (createFailedError cause)
                  /\ length evs = 1%nat
                  /\ w_configFiles w' = w_configFiles w
              end
       | Some _, _ => False
       end).
Proof.
  destruct (init_facts locations options o w)
    as (r & evs & w' & Hrun & Htr & _ & Hsteps & Hst & _ & H).
  exists r, evs, w'. split; [done|]. split; [done|].
  split; [done|]. split; [done|].
  destruct (repo (buildConfigFromInit options)); [|done].
  by destruct H as [H _].
Qed.

(** X21: when [init] returns, every call it made came back normally, the
    configuration built from the options is what the one
    [writeSyncConfig] was given and what is stored, the clone was ensured,
    [ensureRepoPrivate] was called exactly when the configuration includes
    secrets, and the answer is the four-line report. *)
Theorem init_success locations options o w :
  runs (init locations options) o w (fun r evs w' =>
    match r with
    | Ok text =>
        text = initReport locations (buildConfigFromInit options)
        /\ forallb isOk evs = true
        /\ w_configFiles w'
           = <[syncConfigPath locations := buildConfigFromInit options]> (w_configFiles w)
        /\ omap writtenConfig evs = [buildConfigFromInit options]
        /\ completed isClone evs = true
        /\ privacyChecks evs
           = (if includeSecrets (buildConfigFromInit options) then [Ok tt] else [])
    | Err _ => True
    end).
Proof.
  destruct (init_facts locations options o w)
    as (r & evs & w' & Hrun & Htr & _ & _ & _ & _ & H).
  exists r, evs, w'. split; [done|]. split; [done|].
  destruct r as [text|e]; [|done].
  destruct (repo (buildConfigFromInit options)).
  - by destruct H as [_ H].
  - by destruct H as (? & _).
Qed.

(** X22: [enableSecrets] is made of three calls at most: the load,
    [ensureRepoPrivate] and [writeSyncConfig].  When it returns, the
    stored configuration is the loaded one with [includeSecrets] on and
    with the extra secret paths replaced when paths were given (an empty
    list included) and kept otherwise; that very configuration is the one
    the privacy check saw; repo and local path are kept.  When it throws,
    the stored configuration is untouched.  The state is never touched. *)
Theorem enableSecrets_persists_the_checked_config locations extraPaths o w :
  runs (enableSecrets locations extraPaths) o w (fun r evs w' =>
    forallb isSecretsStep evs = true
    /\ w_stateFiles w' = w_stateFiles w
    /\ match r with
       | Ok text =>
           text = lit "Secrets sync enabled for this repo."
           /\ exists config,
                w_configFiles w !! syncConfigPath locations = Some config
                /\ evs = [ Ev (CLoadSyncConfig locations) (Ok tt);
                           Ev (CEnsureRepoPrivate (withSecrets config extraPaths)) (Ok tt);
                           Ev (CWriteSyncConfig locations (withSecrets config extraPaths))
                              (Ok tt) ]
                /\ w_configFiles w'
                   = <[syncConfigPath locations := withSecrets config extraPaths]>
                       (w_configFiles w)
       | Err _ => w_configFiles w' = w_configFiles w
       end).
Proof.
  destruct (enableSecrets_facts locations extraPaths o w)
    as (r & evs & w' & Hrun & Htr & _ & Hsteps & Hst & Hr & _).
  exists r, evs, w'. split; [done|]. split; [done|].
  split; [done|]. split; [done|].
  destruct r as [text|e]; [done|]. by destruct Hr.
Qed.

(** X23: the startup operation throws only what the configuration load or
    a toast threw, as its last call; it never writes the configuration. *)
Theorem startup_throws_only_from_load_or_toast locations o w :
  runs (startupSync locations) o w (fun r evs w' =>
    w_configFiles w' = w_configFiles w
    /\ existsb isConfigWrite evs = false
    /\ match r with
       | Ok _ => True
       | Err e => last evs ≫= thrownByLoadOrToast = Some e
       end).
Proof.
  destruct (startupSync_facts locations o w)
    as (r & evs & w' & Hrun & Htr & Hcf & Hnone & Hr & _).
  exists r, evs, w'. split; [done|]. split; [done|].
  split; [done|]. split; [|done].
  rewrite none_existsb in Hnone. by apply negb_true_iff.
Qed.

(** X24: on a configured machine, the first failure of the startup
    operation that nothing inside the flow catches is either the
    configuration load, which is the only call made then, or it is
    reported: the last call of the run is the error toast whose text is
    the prefix followed by that error's message.  (The generator's
    [TypeError] on an ill-typed client configuration is reported in the
    same way without being the failure of a call.) *)
Theorem startup_reports_the_first_failure locations config o w :
  w_configFiles w !! syncConfigPath locations = Some config ->
  runs (startupSync locations) o w (fun _ evs _ =>
    match firstFailure evs with
    | None => True
    | Some e =>
        evs = [Ev (CLoadSyncConfig locations) (Err e)]
        \/ illTypedConfig o
        \/ lastToast evs = Some (errorToast e)
    end).
Proof.
  intros Hsome.
  destruct (startupSync_facts locations o w)
    as (r & evs & w' & Hrun & Htr & _ & _ & _ & H).
  rewrite Hsome in H. by exists r, evs, w'.
Qed.

(** X25: the startup run itself sends at most one toast, as its last
    call: the warning on a dirty clone or the restart notice after an
    update; it neither loads nor writes the configuration. *)
Theorem runStartup_sends_at_most_one_toast locations config o w :
  runs (runStartup locations config) o w (fun _ evs _ =>
    existsb isConfigWrite evs = false /\ existsb isConfigLoad evs = false
    /\ match omap toastSent evs with
       | [] => True
       | [sent] =>
           lastToast evs = Some sent
           /\ (sent = (startupDirtyToast (resolveRepoRoot config locations), warning)
               \/ sent = (restartToast, info))
       | _ => False
       end).
Proof.
  destruct (runStartup_facts locations config o w)
    as (r & evs & w' & Hrun & Htr & _ & Hnone & _ & _ & _ & _ & _ & H).
  exists r, evs, w'. split; [done|]. split; [done|].
  rewrite !none_existsb, !andb_true_iff, !negb_true_iff in Hnone.
  by destruct_and!.
Qed.

End FlowResults.

Section PullAnswers.
Context {deps : SyncDeps}.

(** X26: what [pull] answers follows the fetch.  When the fetch reported
    no update the answer is ["Already up to date."] and the fetch was the
    last call: nothing was reconciled, written or announced.  When it
    reported one, the answer is the restart text, and by then the
    repo-to-local reconciliation and the state write have completed and
    the restart toast was delivered as the last call.  [pull] returns on
    no other path. *)
Theorem pull_answers_follow_the_fetch locations o w :
  runs (pull locations) o w (fun r evs _ =>
    match r, fetches evs with
    | Ok text, [Ok update] =>
        if updated update
        then text = lit "Remote config applied. Restart OpenCode to use new settings."
             /\ completed isRepoToLocal evs = true
             /\ completed isStateWrite evs = true
             /\ lastToast evs = Some (restartToast, info)
        else text = lit "Already up to date."
             /\ existsb isRepoToLocal evs = false
             /\ existsb isStateWrite evs = false
             /\ existsb isToast evs = false
             /\ (last evs ≫= fetchAnswer) = Some (Ok update)
    | Ok _, _ => False
    | Err _, _ => True
    end).
Proof.
  unfold runs.
  destruct w as [env cf sf tr]. run.
  all: settle; leaf.
  all: read_more.
  all: first [ exact I | repeat split; reflexivity ].
Qed.

End PullAnswers.

(* ===================================================================== *)
(** * Concrete runs *)
(* ===================================================================== *)

Section ConcreteRuns.


(** The two cases of [paths.test.ts]. *)
Example plan_without_secrets :
  let plan := buildSyncPlan plainConfig homeLocations (lit "/repo") (lit "linux") in
  length (filter (fun item => isSecret item = true) (items plan)) = 0%nat
  /\ length (extraSecrets_allowlist plan) = 0%nat.
Proof. split; reflexivity. Qed.

Example plan_with_secrets :
  let plan := buildSyncPlan secretConfig homeLocations (lit "/repo") (lit "linux") in
  length (filter (fun item => isSecret item = true) (items plan)) = 2%nat
  /\ length (extraSecrets_allowlist plan) = 1%nat.
Proof. split; reflexivity. Qed.

Lemma plan_has_secrets_only_when_enabled_witness :
  includeSecrets plainConfig = false
  /\ filter (fun item => isSecret item = true)
            (items (buildSyncPlan plainConfig homeLocations (lit "/repo") (lit "linux")))
     = []
  /\ extraSecrets_allowlist
       (buildSyncPlan plainConfig homeLocations (lit "/repo") (lit "linux")) = [].
Proof.
  split; [reflexivity|].
  apply (plan_has_secrets_only_when_enabled plainConfig homeLocations
           (lit "/repo") (lit "linux")).
  reflexivity.
Defined.

(** The prompt throws and the delete throws: the fallback comes back. *)
Example fallback_when_the_model_is_unreachable :
  fst (generateCommitMessage (lit "/repo") None (scripted brokenModelScript) freshWorld)
  = Ok (lit "Sync OpenCode config (2026-11-02)").
Proof. vm_compute. reflexivity. Qed.

Example quoted_two_line_reply_is_sanitized :
  fst (generateCommitMessage (lit "/repo") None (scripted localEditScript) freshWorld)
  = Ok (lit "Update agent settings").
Proof. vm_compute. reflexivity. Qed.


Lemma scripted_agree_except_delete :
  agreeExceptDelete (scripted localEditScript) (scripted brokenDeleteScript).
Proof.
  split; [reflexivity|].
  intros A h c Hc. destruct c; try reflexivity. discriminate Hc.
Qed.

Lemma session_released_exactly_once_witness :
  agreeExceptDelete (scripted localEditScript) (scripted brokenDeleteScript)
  /\ fst (generateCommitMessage (lit "/repo") None (scripted brokenDeleteScript) freshWorld)
     = fst (generateCommitMessage (lit "/repo") None (scripted localEditScript) freshWorld).
Proof.
  split; [exact scripted_agree_except_delete|].
  apply (session_released_exactly_once (lit "/repo") None (scripted localEditScript)
           freshWorld).
  exact scripted_agree_except_delete.
Defined.


(** A push of local edits on the configured machine. *)
Example push_of_local_edits :
  let run := push (deps:=exampleDeps) homeLocations (scripted localEditScript)
                  (configuredWorld plainConfig) in
  fst run = Ok (lit "Pushed changes: Update agent settings")
  /\ w_stateFiles (snd run) !! statePath homeLocations
     = Some (mkSyncState (lastPull storedState)
                         (Some (lit "2026-11-02T09:30:00.000Z"))
                         (lastRemoteUpdate storedState)).
Proof. split; vm_compute; reflexivity. Qed.


(** The scenarios of the specification, on the configured machine. *)
Example pull_when_nothing_is_new :
  fst (pull (deps:=exampleDeps) homeLocations (scripted quietScript)
            (configuredWorld plainConfig))
  = Ok (lit "Already up to date.").
Proof. vm_compute. reflexivity. Qed.

Example pull_of_an_update :
  let run := pull (deps:=exampleDeps) homeLocations (scripted updatedScript)
                  (configuredWorld plainConfig) in
  fst run = Ok (lit "Remote config applied. Restart OpenCode to use new settings.")
  /\ w_stateFiles (snd run) !! statePath homeLocations
     = Some (mkSyncState (Some (lit "2026-11-02T09:30:00.000Z"))
                         (lastPush storedState)
                         (Some (lit "2026-11-02T09:30:00.000Z"))).
Proof. split; vm_compute; reflexivity. Qed.

Example push_with_an_unreachable_model :
  fst (push (deps:=exampleDeps) homeLocations (scripted brokenModelScript)
            (configuredWorld plainConfig))
  = Ok (lit "Pushed changes: Sync OpenCode config (2026-11-02)").
Proof. vm_compute. reflexivity. Qed.

Example startup_pushes_local_edits :
  let run := runStartup (deps:=exampleDeps) homeLocations plainConfig
                        (scripted localEditScript) (configuredWorld plainConfig) in
  fst run = Ok tt
  /\ completed isCommit (w_trace (snd run)) = true
  /\ completed isPush (w_trace (snd run)) = true
  /\ w_stateFiles (snd run) !! statePath homeLocations
     = Some (mkSyncState (lastPull storedState)
                         (Some (lit "2026-11-02T09:30:00.000Z"))
                         (lastRemoteUpdate storedState)).
Proof. repeat split; vm_compute; reflexivity. Qed.

Example startup_on_a_dirty_clone :
  let run := startupSync (deps:=exampleDeps) homeLocations (scripted dirtyScript)
                         (configuredWorld plainConfig) in
  fst run = Ok tt
  /\ last (w_trace (snd run))
     = Some (Ev (CShowToast (startupDirtyToast (defaultRepoRoot homeLocations)) warning)
                (Ok tt))
  /\ w_stateFiles (snd run) = w_stateFiles (configuredWorld plainConfig).
Proof. repeat split; vm_compute; reflexivity. Qed.

Example enableSecrets_on_a_private_remote :
  let run := enableSecrets homeLocations None (scripted quietScript)
                           (configuredWorld plainConfig) in
  fst run = Ok (lit "Secrets sync enabled for this repo.")
  /\ w_configFiles (snd run) !! syncConfigPath homeLocations = Some secretConfig.
Proof. split; vm_compute; reflexivity. Qed.

Example enableSecrets_on_a_public_remote :
  enableSecrets homeLocations None (scripted publicRepoScript)
                (configuredWorld plainConfig)
  = (Err notPrivate,
     extend (configuredWorld plainConfig)
       [Ev (CLoadSyncConfig homeLocations) (Ok tt);
        Ev (CEnsureRepoPrivate secretConfig) (Err notPrivate)]).
Proof. vm_compute. reflexivity. Qed.

Lemma run_determines {A} (m : M A) o w r evs w' :
  m o w = (r, w') ->
  w_trace w' = w_trace w ++ evs ->
  w_trace w = [] ->
  r = fst (m o w) /\ evs = w_trace (snd (m o w)) /\ w' = snd (m o w).
Proof. intros -> Htr Hnil. cbn. by rewrite Htr, Hnil. Qed.

(** [pull] on a dirty clone. *)
Lemma dirty_repo_blocks_pull_push_not_startup_witness :
  head (dirtyChecks
          (w_trace (snd (pull (deps:=exampleDeps) homeLocations (scripted dirtyScript)
                              (configuredWorld plainConfig)))))
  = Some (defaultRepoRoot homeLocations, Ok true)
  /\ fst (pull (deps:=exampleDeps) homeLocations (scripted dirtyScript)
               (configuredWorld plainConfig))
     = Err (mkExn SyncCommandError
                  (dirtyMessage (defaultRepoRoot homeLocations) "pulling"))
  /\ none mutating
       (w_trace (snd (pull (deps:=exampleDeps) homeLocations (scripted dirtyScript)
                           (configuredWorld plainConfig)))) = true.
Proof.
  destruct (dirty_repo_blocks_pull_push_not_startup (deps:=exampleDeps) homeLocations
              (scripted dirtyScript) (configuredWorld plainConfig))
    as ((r & evs & w' & Hrun & Htr & Hdirty) & _).
  destruct (run_determines _ _ _ _ _ _ Hrun Htr eq_refl) as (-> & -> & ->).
  assert (Hfirst :
    head (dirtyChecks
            (w_trace (snd (pull (deps:=exampleDeps) homeLocations (scripted dirtyScript)
                                (configuredWorld plainConfig)))))
    = Some (defaultRepoRoot homeLocations, Ok true)) by (vm_compute; reflexivity).
  destruct (Hdirty _ Hfirst) as (Hr & Hnone & _).
  split; [exact Hfirst | split; [exact Hr | exact Hnone] ].
Defined.

(** The startup run when the fetch brings an update. *)
Lemma startup_pulls_or_else_pushes_witness :
  head (dirtyChecks
          (w_trace (snd (runStartup (deps:=exampleDeps) homeLocations plainConfig
                                    (scripted updatedScript)
                                    (configuredWorld plainConfig)))))
  = Some (defaultRepoRoot homeLocations, Ok false)
  /\ fetches
       (w_trace (snd (runStartup (deps:=exampleDeps) homeLocations plainConfig
                                 (scripted updatedScript)
                                 (configuredWorld plainConfig))))
     = [Ok (mkFetchResult true)]
  /\ none isCommit
       (w_trace (snd (runStartup (deps:=exampleDeps) homeLocations plainConfig
                                 (scripted updatedScript)
                                 (configuredWorld plainConfig)))) = true
  /\ none isPush
       (w_trace (snd (runStartup (deps:=exampleDeps) homeLocations plainConfig
                                 (scripted updatedScript)
                                 (configuredWorld plainConfig)))) = true.
Proof.
  destruct (startup_pulls_or_else_pushes (deps:=exampleDeps) homeLocations plainConfig
              (scripted updatedScript) (configuredWorld plainConfig))
    as (r & evs & w' & Hrun & Htr & _ & Hclean).
  destruct (run_determines _ _ _ _ _ _ Hrun Htr eq_refl) as (-> & -> & ->).
  assert (Hfirst :
    head (dirtyChecks
            (w_trace (snd (runStartup (deps:=exampleDeps) homeLocations plainConfig
                                      (scripted updatedScript)
                                      (configuredWorld plainConfig)))))
    = Some (defaultRepoRoot homeLocations, Ok false)) by (vm_compute; reflexivity).
  assert (Hfetch :
    fetches
      (w_trace (snd (runStartup (deps:=exampleDeps) homeLocations plainConfig
                                (scripted updatedScript)
                                (configuredWorld plainConfig))))
    = [Ok (mkFetchResult true)]) by (vm_compute; reflexivity).
  destruct (Hclean _ Hfirst) as (Hupdated & _).
  destruct (Hupdated Hfetch) as (_ & Hcommit & Hpush & _).
  split; [exact Hfirst | split; [exact Hfetch | split; [exact Hcommit | exact Hpush] ] ].
Defined.

(** A push whose commit fails. *)
Lemma state_written_only_after_success_witness :
  existsb failedStep
    (w_trace (snd (push (deps:=exampleDeps) homeLocations (scripted failedCommitScript)
                        (configuredWorld plainConfig)))) = true
  /\ statePatches
       (w_trace (snd (push (deps:=exampleDeps) homeLocations (scripted failedCommitScript)
                           (configuredWorld plainConfig)))) = []
  /\ w_stateFiles
       (snd (push (deps:=exampleDeps) homeLocations (scripted failedCommitScript)
                  (configuredWorld plainConfig)))
     = w_stateFiles (configuredWorld plainConfig).
Proof.
  destruct (state_written_only_after_success (deps:=exampleDeps) homeLocations
              (scripted failedCommitScript) (configuredWorld plainConfig))
    as (_ & (r & evs & w' & Hrun & Htr & _ & _ & Hfailed & _) & _).
  destruct (run_determines _ _ _ _ _ _ Hrun Htr eq_refl) as (-> & -> & ->).
  assert (Hstep :
    existsb failedStep
      (w_trace (snd (push (deps:=exampleDeps) homeLocations (scripted failedCommitScript)
                          (configuredWorld plainConfig)))) = true)
    by (vm_compute; reflexivity).
  destruct (Hfailed Hstep) as (Hnone & Hstate & _).
  split; [exact Hstep | split; [exact Hnone | exact Hstate] ].
Defined.

(** Secrets enabled, remote public: [pull]. *)
Lemma privacy_violation_blocks_the_flow_witness :
  privacyChecks
    (w_trace (snd (pull (deps:=exampleDeps) homeLocations (scripted publicRepoScript)
                        (configuredWorld secretConfig)))) = [Err notPrivate]
  /\ fst (pull (deps:=exampleDeps) homeLocations (scripted publicRepoScript)
               (configuredWorld secretConfig)) = Err notPrivate
  /\ none mutating
       (w_trace (snd (pull (deps:=exampleDeps) homeLocations (scripted publicRepoScript)
                           (configuredWorld secretConfig)))) = true.
Proof.
  destruct (privacy_violation_blocks_the_flow (deps:=exampleDeps) homeLocations
              (scripted publicRepoScript) (configuredWorld secretConfig))
    as (_ & (r & evs & w' & Hrun & Htr & _ & Hviolation) & _).
  destruct (run_determines _ _ _ _ _ _ Hrun Htr eq_refl) as (-> & -> & ->).
  assert (Hcheck :
    privacyChecks
      (w_trace (snd (pull (deps:=exampleDeps) homeLocations (scripted publicRepoScript)
                          (configuredWorld secretConfig)))) = [Err notPrivate])
    by (vm_compute; reflexivity).
  destruct (Hviolation _ Hcheck) as (Hr & Hnone & _).
  split; [exact Hcheck | split; [exact Hr | exact Hnone] ].
Defined.

(** C2 as stated fails: with secrets requested and a public remote,
    [init] has persisted the configuration, secrets enabled, by the time
    the privacy check throws; and the startup operation, on a machine
    configured that way, returns normally. *)
Lemma init_persists_before_the_privacy_check :
  (fst (init (deps:=exampleDeps) homeLocations secretInit (scripted publicRepoScript)
             freshWorld) = Err notPrivate
   /\ w_configFiles freshWorld !! syncConfigPath homeLocations = None
   /\ w_configFiles
        (snd (init (deps:=exampleDeps) homeLocations secretInit
                   (scripted publicRepoScript) freshWorld))
        !! syncConfigPath homeLocations = Some secretConfig
   /\ w_trace
        (snd (init (deps:=exampleDeps) homeLocations secretInit
                   (scripted publicRepoScript) freshWorld))
      = [ Ev (CWriteSyncConfig homeLocations secretConfig) (Ok tt);
          Ev (CEnsureRepoCloned secretConfig (defaultRepoRoot homeLocations)) (Ok tt);
          Ev (CEnsureRepoPrivate secretConfig) (Err notPrivate) ])
  /\ fst (startupSync (deps:=exampleDeps) homeLocations (scripted publicRepoScript)
                      (configuredWorld secretConfig)) = Ok tt.
Proof. repeat split; vm_compute; reflexivity. Qed.

(** The service keeps the locations of the environment it was created in. *)
Lemma locations_fixed_at_creation_plan_rebuilt_witness :
  exists svc,
    createSyncService (deps:=exampleDeps) (scripted quietScript)
                      (configuredWorld plainConfig)
    = (Ok svc, configuredWorld plainConfig)
    /\ svc_pull svc = pull (deps:=exampleDeps) homeLocations.
Proof.
  destruct (locations_fixed_at_creation_plan_rebuilt (deps:=exampleDeps)
              (scripted quietScript) (configuredWorld plainConfig))
    as ((svc & Hcreate & _ & _ & _ & Hpull & _) & _).
  exists svc. split; [exact Hcreate | exact Hpull].
Defined.

(** C9 as stated fails: a service created before [OPENCODE_CONFIG_DIR] was
    set keeps reading the configuration at the old locations; on the
    machine where the configuration now lives under the new directory its
    [status] answers that nothing is configured. *)
Lemma service_keeps_the_locations_it_was_created_with :
  exists svc,
    createSyncService (deps:=exampleDeps) (scripted quietScript)
                      (configuredWorld plainConfig)
    = (Ok svc, configuredWorld plainConfig)
    /\ resolveSyncLocations (SyncDeps:=exampleDeps) (w_env relocatedWorld)
       <> resolveSyncLocations (SyncDeps:=exampleDeps)
            (w_env (configuredWorld plainConfig))
    /\ w_configFiles relocatedWorld
         !! syncConfigPath (resolveSyncLocations (SyncDeps:=exampleDeps)
                              (w_env relocatedWorld))
       = Some plainConfig
    /\ fst (svc_status svc (scripted quietScript) relocatedWorld)
       = Ok (lit "opencode-sync is not configured. Run /opencode-sync-init to set it up.")
    /\ head (omap loadedFrom
               (w_trace (snd (svc_status svc (scripted quietScript) relocatedWorld))))
       = Some (resolveSyncLocations (SyncDeps:=exampleDeps)
                 (w_env (configuredWorld plainConfig))).
Proof.
  eexists. split; [reflexivity|].
  split; [vm_compute; discriminate|].
  repeat split; vm_compute; reflexivity.
Qed.

End ConcreteRuns.

(* ===================================================================== *)
(** * Concrete runs of the flow properties *)
(* ===================================================================== *)

Section MoreConcreteRuns.

(** [pull] on a machine that was never configured. *)
Lemma missing_config_stops_the_flow_witness :
  w_configFiles freshWorld !! syncConfigPath homeLocations = None
  /\ exists loaded,
       pull (deps:=exampleDeps) homeLocations (scripted quietScript) freshWorld
       = (Err (match loaded with Ok _ => missingConfigError | Err e => e end),
          extend freshWorld [Ev (CLoadSyncConfig homeLocations) loaded]).
Proof.
  assert (H : w_configFiles freshWorld !! syncConfigPath homeLocations = None)
    by reflexivity.
  split; [exact H|].
  exact (Forall_inv (missing_config_stops_the_flow (deps:=exampleDeps) homeLocations None
                       (scripted quietScript) freshWorld H)).
Defined.

(** [status] on a machine that was never configured. *)
Lemma unconfigured_status_and_startup_witness :
  w_configFiles freshWorld !! syncConfigPath homeLocations = None
  /\ exists loaded,
       status (deps:=exampleDeps) homeLocations (scripted quietScript) freshWorld
       = (match loaded with
          | Ok _ => Ok (lit "opencode-sync is not configured. Run /opencode-sync-init to set it up.")
          | Err e => Err e
          end,
          extend freshWorld [Ev (CLoadSyncConfig homeLocations) loaded]).
Proof.
  assert (H : w_configFiles freshWorld !! syncConfigPath homeLocations = None)
    by reflexivity.
  split; [exact H|].
  exact (proj1 (unconfigured_status_and_startup (deps:=exampleDeps) homeLocations
                  (scripted quietScript) freshWorld H)).
Defined.

Lemma plainConfig_stored :
  w_configFiles (configuredWorld plainConfig) !! syncConfigPath homeLocations
  = Some plainConfig.
Proof. by vm_compute. Qed.

Lemma secretConfig_stored :
  w_configFiles (configuredWorld secretConfig) !! syncConfigPath homeLocations
  = Some secretConfig.
Proof. by vm_compute. Qed.

(** [push] of local edits: the commit is pushed to the observed branch. *)
Example push_goes_to_the_observed_branch :
  omap syncedBranch
       (w_trace (snd (push (deps:=exampleDeps) homeLocations (scripted localEditScript)
                           (configuredWorld plainConfig))))
  = [lit "main"].
Proof. by vm_compute. Qed.

Lemma sync_uses_the_observed_branch_witness :
  w_configFiles (configuredWorld plainConfig) !! syncConfigPath homeLocations
  = Some plainConfig
  /\ runs (push (deps:=exampleDeps) homeLocations) (scripted localEditScript)
          (configuredWorld plainConfig)
          (fun _ evs _ =>
             Forall (eq (resolveRepoBranch (SyncDeps:=exampleDeps) plainConfig
                           (observedBranch evs)))
                    (omap syncedBranch evs)).
Proof.
  split; [exact plainConfig_stored|].
  exact (proj1 (proj2 (sync_uses_the_observed_branch (deps:=exampleDeps) homeLocations
                         plainConfig (scripted localEditScript)
                         (configuredWorld plainConfig) plainConfig_stored))).
Defined.

Lemma no_privacy_check_without_secrets_witness :
  w_configFiles (configuredWorld plainConfig) !! syncConfigPath homeLocations
  = Some plainConfig
  /\ includeSecrets plainConfig = false
  /\ runs (pull (deps:=exampleDeps) homeLocations) (scripted updatedScript)
          (configuredWorld plainConfig)
          (fun _ evs _ => privacyChecks evs = []).
Proof.
  split; [exact plainConfig_stored|]. split; [reflexivity|].
  exact (proj1 (no_privacy_check_without_secrets (deps:=exampleDeps) homeLocations
                  plainConfig (scripted updatedScript) (configuredWorld plainConfig)
                  plainConfig_stored eq_refl)).
Defined.

(** [pull] of an update mutates, after the clone and the clean check. *)
Example pull_of_an_update_mutates :
  existsb mutating
          (w_trace (snd (pull (deps:=exampleDeps) homeLocations (scripted updatedScript)
                              (configuredWorld plainConfig))))
  = true.
Proof. by vm_compute. Qed.

Lemma mutation_only_after_clone_and_clean_check_witness :
  w_configFiles (configuredWorld plainConfig) !! syncConfigPath homeLocations
  = Some plainConfig
  /\ runs (pull (deps:=exampleDeps) homeLocations) (scripted updatedScript)
          (configuredWorld plainConfig)
          (fun _ evs _ =>
             if existsb mutating evs
             then head (dirtyChecks evs)
                  = Some (resolveRepoRoot (SyncDeps:=exampleDeps) plainConfig homeLocations,
                          Ok false)
                  /\ completed isClone (beforeFirst mutating evs) = true
             else True).
Proof.
  split; [exact plainConfig_stored|].
  exact (proj1 (mutation_only_after_clone_and_clean_check (deps:=exampleDeps)
                  homeLocations plainConfig (scripted updatedScript)
                  (configuredWorld plainConfig) plainConfig_stored)).
Defined.

(** [push] of local edits asks for a commit message. *)
Example push_of_local_edits_asks_for_a_message :
  existsb messageCall
          (w_trace (snd (push (deps:=exampleDeps) homeLocations (scripted localEditScript)
                              (configuredWorld plainConfig))))
  = true.
Proof. by vm_compute. Qed.

Lemma commit_message_requested_only_for_changes_witness :
  w_configFiles (configuredWorld plainConfig) !! syncConfigPath homeLocations
  = Some plainConfig
  /\ runs (push (deps:=exampleDeps) homeLocations) (scripted localEditScript)
          (configuredWorld plainConfig)
          (fun _ evs _ =>
             if existsb messageCall evs
             then dirtyChecks evs
                  = [ (resolveRepoRoot (SyncDeps:=exampleDeps) plainConfig homeLocations,
                       Ok false);
                      (resolveRepoRoot (SyncDeps:=exampleDeps) plainConfig homeLocations,
                       Ok true) ]
             else True).
Proof.
  split; [exact plainConfig_stored|].
  exact (proj1 (commit_message_requested_only_for_changes (deps:=exampleDeps)
                  homeLocations plainConfig (scripted localEditScript)
                  (configuredWorld plainConfig) plainConfig_stored)).
Defined.

(** [status] on a configured machine with a clean clone. *)
Example status_of_a_clean_clone :
  fst (status (deps:=exampleDeps) homeLocations (scripted quietScript)
              (configuredWorld secretConfig))
  = Ok (join [LF]
          [ lit "Repo: acme/config";
            lit "Branch: main";
            lit "Secrets: enabled";
            lit "Last pull: 2026-10-30T08:00:00.000Z";
            lit "Last push: 2026-10-31T08:00:00.000Z";
            lit "Working tree: clean" ]).
Proof. by vm_compute. Qed.

Lemma status_report_witness :
  w_configFiles (configuredWorld secretConfig) !! syncConfigPath homeLocations
  = Some secretConfig
  /\ exists r evs,
       status (deps:=exampleDeps) homeLocations (scripted quietScript)
              (configuredWorld secretConfig)
       = (r, extend (configuredWorld secretConfig) evs)
       /\ match r, omap clonedAnswer evs, omap statusAnswer evs with
          | Ok text, [Ok false], [] =>
              text = statusReport (deps:=exampleDeps) secretConfig
                       (resolveRepoBranch (SyncDeps:=exampleDeps) secretConfig None)
                       (persisted homeLocations (configuredWorld secretConfig))
                       (lit "not cloned")
          | Ok text, [Ok true], [Err _] =>
              text = statusReport (deps:=exampleDeps) secretConfig
                       (resolveRepoBranch (SyncDeps:=exampleDeps) secretConfig None)
                       (persisted homeLocations (configuredWorld secretConfig))
                       (lit "unknown")
          | Ok text, [Ok true], [Ok observed] =>
              text = statusReport (deps:=exampleDeps) secretConfig (status_branch observed)
                       (persisted homeLocations (configuredWorld secretConfig))
                       (pendingLabel (status_changes observed))
          | Ok _, _, _ => False
          | Err _, _, _ => True
          end.
Proof.
  split; [exact secretConfig_stored|].
  exact (status_report (deps:=exampleDeps) homeLocations secretConfig
           (scripted quietScript) (configuredWorld secretConfig) secretConfig_stored).
Defined.

(** Startup against a public remote with secrets enabled: the privacy
    check fails and its message is what the error toast shows. *)
Example startup_reports_a_public_remote :
  lastToast
    (w_trace (snd (startupSync (deps:=exampleDeps) homeLocations
                               (scripted publicRepoScript)
                               (configuredWorld secretConfig))))
  = Some (lit "opencode-sync: Secrets sync requires a private repository.", error).
Proof. by vm_compute. Qed.

Lemma startup_reports_the_first_failure_witness :
  w_configFiles (configuredWorld secretConfig) !! syncConfigPath homeLocations
  = Some secretConfig
  /\ runs (startupSync (deps:=exampleDeps) homeLocations) (scripted publicRepoScript)
          (configuredWorld secretConfig)
          (fun _ evs _ =>
             match firstFailure evs with
             | None => True
             | Some e =>
                 evs = [Ev (CLoadSyncConfig homeLocations) (Err e)]
                 \/ illTypedConfig (scripted publicRepoScript)
                 \/ lastToast evs = Some (errorToast e)
             end).
Proof.
  split; [exact secretConfig_stored|].
  exact (startup_reports_the_first_failure (deps:=exampleDeps) homeLocations secretConfig
           (scripted publicRepoScript) (configuredWorld secretConfig)
           secretConfig_stored).
Defined.

End MoreConcreteRuns.
